(** * IndieShots: email-verified registration and client session reconciliation

    A shallow embedding of the two stateful parts of the repository:

    - the server-side one-time-code ledger ([generateOTP], [storeOTP],
      [registerWithOTP], [verifyOTP], [resendOTP]), an in-memory
      [Map] keyed by the lower-cased email together with the
      [setTimeout] eviction timers it schedules;
    - the client-side [AuthManager] singleton of [authManager.ts]
      (its fields, [localStorage], the auth-state listener installed by
      [initialize], [logout], [updateUserData], [validateAndUpdateTier]).

    Asynchronous handlers are cut at their [await] points: every
    synchronous segment is one function on the state, and the value an
    [await] resolves to is an argument of the segment that follows it. *)

From Stdlib Require Import ZArith Lia Bool List Ascii String.
From Stdlib Require Import Decimal DecimalString DecimalZ DecimalPos
  DecimalFacts.
From stdpp Require Import base option gmap strings list.

Import ListNotations.
Local Open Scope string_scope.
Local Open Scope Z_scope.

(* ===================================================================== *)
(** * JavaScript built-ins used by the sources *)
(* ===================================================================== *)

Module JS.

(** [String.prototype.toLowerCase], on ASCII text. *)
Definition lowerChar (c : ascii) : ascii :=
  let n := nat_of_ascii c in
  if (Nat.leb 65 n && Nat.leb n 90)%bool then ascii_of_nat (n + 32) else c.

Fixpoint toLowerCase (s : string) : string :=
  match s with
  | EmptyString => EmptyString
  | String c r => String (lowerChar c) (toLowerCase r)
  end.



(** [!s] for a string: only the empty string is falsy. *)
Definition falsy (s : string) : bool :=
  match s with EmptyString => true | _ => false end.

(** [Number.prototype.toString] on an integer. *)
Definition toString (z : Z) : string :=
  NilZero.string_of_int (Z.to_int z).

Definition isDigit (c : ascii) : bool :=
  let n := nat_of_ascii c in (Nat.leb 48 n && Nat.leb n 57)%bool.

Definition isSpace (c : ascii) : bool :=
  let n := nat_of_ascii c in
  (Nat.eqb n 32 || (Nat.leb 9 n && Nat.leb n 13))%bool.

Fixpoint trimStart (s : string) : string :=
  match s with
  | String c r => if isSpace c then trimStart r else s
  | EmptyString => EmptyString
  end.

Fixpoint digitPrefix (s : string) : string :=
  match s with
  | String c r => if isDigit c then String c (digitPrefix r) else EmptyString
  | EmptyString => EmptyString
  end.

(** Radix 10: the longest run of leading digits, [None] (NaN) when empty. *)
Definition parseDec (s : string) : option Z :=
  match digitPrefix s with
  | EmptyString => None
  | p => option_map Z.of_uint (NilEmpty.uint_of_string p)
  end.

Definition hexVal (c : ascii) : option Z :=
  let n := nat_of_ascii c in
  if (Nat.leb 48 n && Nat.leb n 57)%bool then Some (Z.of_nat (n - 48))
  else if (Nat.leb 97 n && Nat.leb n 102)%bool then Some (Z.of_nat (n - 87))
  else if (Nat.leb 65 n && Nat.leb n 70)%bool then Some (Z.of_nat (n - 55))
  else None.

Fixpoint parseHexFrom (s : string) (acc : option Z) : option Z :=
  match s with
  | String c r =>
      match hexVal c with
      | Some d => parseHexFrom r (Some (16 * default 0 acc + d))
      | None => acc
      end
  | EmptyString => acc
  end.

(** An optional sign in front of the digits. *)
Definition splitSign (s : string) : bool * string :=
  match s with
  | String c r =>
      if Ascii.eqb c "-" then (true, r)
      else if Ascii.eqb c "+" then (false, r)
      else (false, s)
  | EmptyString => (false, s)
  end.

(** The digits after the sign: hexadecimal after [0x] or [0X]. *)
Definition parseMagnitude (s : string) : option Z :=
  match s with
  | String c (String c' r) =>
      if (Ascii.eqb c "0" && (Ascii.eqb c' "x" || Ascii.eqb c' "X"))%bool
      then parseHexFrom r None else parseDec s
  | _ => parseDec s
  end.

(** [parseInt(s)] without a radix: leading white space, an optional
    sign, an optional [0x] prefix, then digits; anything after the digits
    is ignored.  [None] stands for NaN. *)
Definition parseInt (s : string) : option Z :=
  let '(neg, s2) := splitSign (trimStart s) in
  option_map (fun m => if neg : bool then - m else m) (parseMagnitude s2).

(** [a - b < c] where [b] may be NaN: a comparison with NaN is false. *)
Definition elapsedBelow (now : Z) (t : option Z) (limit : Z) : bool :=
  match t with
  | Some t0 => now - t0 <? limit
  | None => false
  end.

Fixpoint allDigits (s : string) : bool :=
  match s with
  | String c r => isDigit c && allDigits r
  | EmptyString => true
  end.

End JS.

(* ===================================================================== *)
(** * The verification ledger (server) *)
(* ===================================================================== *)

Module Ledger.
Import JS.

(** JSON values of request and response bodies. *)
#[local] Unset Elimination Schemes.
Inductive json :=
  | JNull
  | JBool (b : bool)
  | JNum (n : Z)
  | JStr (s : string)
  | JObj (fields : list (string * json)).
#[local] Set Elimination Schemes.

(** What a handler hands to [res]: the status, the [json] body and the
    cookies set with [res.cookie]. *)
Record Response := mkResponse {
  status : Z;
  body : json;
  cookies : list (string * string)
}.

Definition reply (code : Z) (fields : list (string * json)) : Response :=
  mkResponse code (JObj fields) [].

Definition message (code : Z) (msg : string) : Response :=
  reply code [("message", JStr msg)].

(** The value an [await] resolves to, or the rejection that lands in the
    handler's [catch]. *)
Inductive Awaited (A : Type) :=
  | Resolved (a : A)
  | Rejected.
Arguments Resolved {A} a.
Arguments Rejected {A}.

(** The prepared account record kept with the code ([userData]). *)
Record UserData := mkUserData {
  email : string;
  firstName : string;
  lastName : string;
  password : string;
  provider : string;
  tier : string;
  totalPages : Z;
  maxShotsPerScene : Z;
  canGenerateStoryboards : bool;
  usedPages : Z;
  couponCode : option string
}.

(** One entry of [otpStore]. *)
Record Pending := mkPending {
  otp : string;
  expires : Z;
  userData : UserData;
  attempts : Z
}.

(** The module state: [otpStore] and the callbacks registered with
    [setTimeout], each with the time it is due and the key it deletes. *)
Record Server := mkServer {
  otpStore : gmap string Pending;
  timers : list (Z * string)
}.

(** ** Code generation *)

(** [crypto.randomInt(min, max)]: an integer [n] with [min <= n < max];
    [entropy] is the random draw the result is reduced from. *)
Definition randomInt (min max entropy : Z) : Z :=
  min + entropy mod (max - min).

Definition generateOTP (entropy : Z) : string :=
  toString (randomInt 100000 999999 entropy).

(** ** Storing a code *)

Definition codeLifetime : Z := 5 * 60 * 1000.
Definition evictionDelay : Z := 10 * 60 * 1000.

Definition storeOTP (now : Z) (email otp : string) (data : UserData)
    (s : Server) : Server :=
  let expires := now + codeLifetime in
  mkServer
    (<[toLowerCase email := mkPending otp expires data 0]> (otpStore s))
    (timers s ++ [(now + evictionDelay, toLowerCase email)]).

(** The callback of the eviction timer. *)
Definition evict (key : string) (m : gmap string Pending)
    : gmap string Pending :=
  delete key m.

Definition isDue (now : Z) (t : Z * string) : bool := t.1 <=? now.

(** The event loop at time [now]: every timer that is due runs, in the
    order the timers were registered, and is dropped from the queue. *)
Definition runTimers (now : Z) (s : Server) : Server :=
  mkServer
    (fold_left (fun m t => evict t.2 m)
       (List.filter (isDue now) (timers s)) (otpStore s))
    (List.filter (fun t => negb (isDue now t)) (timers s)).

(** ** The taxonomy of failures, as the handlers report them *)

Definition ValidationError (msg : string) : Response := message 400 msg.
Definition ConflictError : Response := message 400 "Email already registered".
Definition NotFoundError : Response :=
  message 400 "No verification pending for this email".
Definition ExpiredError : Response :=
  message 400 "OTP has expired. Please register again.".
Definition RateLimitedError : Response :=
  message 400 "Too many failed attempts. Please register again.".
Definition MismatchError (attemptsLeft : Z) : Response :=
  reply 400 [("message", JStr "Invalid OTP code");
             ("attemptsLeft", JNum attemptsLeft)].

Section Handlers.

(** Collaborators outside the file: the email test of the validation
    schema and the session-token issuer. *)
Variable isEmail : string -> bool.
Variable generateToken : Z -> string.

(** ** registerWithOTP *)

(** The request body; a field that is missing is [None]. *)
Record RegisterBody := mkRegisterBody {
  b_firstName : option string;
  b_lastName : option string;
  b_email : option string;
  b_password : option string;
  b_couponCode : option string
}.

(** [registerSchema.parse]: the message of the first issue, or the
    validated email and password. *)
Definition parseRegister (b : RegisterBody) : string + (string * string) :=
  match b_email b with
  | None => inl "Required"
  | Some e =>
      if negb (isEmail e) then inl "Invalid email address"
      else match b_password b with
           | None => inl "Required"
           | Some p =>
               if (String.length p <? 8)%nat
               then inl "Password must be at least 8 characters"
               else inr (e, p)
           end
  end.

(** [if (validatedData.couponCode)]: present and not empty. *)
Definition couponGiven (b : RegisterBody) : bool :=
  match b_couponCode b with
  | Some c => negb (falsy c)
  | None => false
  end.

(** The result of the promo-code check: only a resolved, valid
    validation upgrades; a rejection is caught and leaves the free tier. *)
Definition upgraded (b : RegisterBody) (promo : Awaited bool) : bool :=
  couponGiven b &&
  match promo with
  | Resolved isValid => isValid
  | Rejected => false
  end.

Definition prepareUserData (b : RegisterBody) (e hashed : string)
    (promo : Awaited bool) : UserData :=
  let pro := upgraded b promo in
  mkUserData (toLowerCase e)
    (default "" (b_firstName b)) (default "" (b_lastName b))
    hashed "local"
    (if pro then "pro" else "free")
    (if pro then -1 else 10)
    (if pro then -1 else 5)
    pro
    0
    (b_couponCode b).

Definition registerAck (e : string) : Response :=
  reply 200
    [("message",
      JStr "Verification code sent! Check the server console for your OTP.");
     ("email", JStr e);
     ("requiresVerification", JBool true);
     ("devNote", JStr "For development: Check server console for OTP code")].

(** The handler.  [existing], [hashed] and [promo] are what the awaited
    lookups resolved to; the store is read and written only in the last,
    synchronous, segment, at time [now] with the draw [entropy]. *)
Definition registerWithOTP (now : Z) (b : RegisterBody)
    (existing : Awaited bool) (hashed : Awaited string)
    (promo : Awaited bool) (entropy : Z) (s : Server) : Response * Server :=
  match parseRegister b with
  | inl msg => (ValidationError msg, s)
  | inr (e, _) =>
      match existing with
      | Rejected => (message 500 "Registration failed", s)
      | Resolved true => (ConflictError, s)
      | Resolved false =>
          match hashed with
          | Rejected => (message 500 "Registration failed", s)
          | Resolved h =>
              let data := prepareUserData b e h promo in
              let code := generateOTP entropy in
              (registerAck (email data),
               storeOTP now (email data) code data s)
          end
      end
  end.

(** ** verifyOTP *)

(** The account as [storage.createUser] returns it: its [id] and its
    other properties. *)
Record CreatedUser := mkCreatedUser {
  cu_id : Z;
  cu_props : list (string * json)
}.

(** [const { password, ...userResponse } = user]. *)
Definition userResponse (u : CreatedUser) : json :=
  JObj (("id", JNum (cu_id u))
        :: List.filter (fun kv => negb (String.eqb kv.1 "password"))
             (cu_props u)).

(** Where the first segment of [verifyOTP] ends: with a response, or
    at [await storage.createUser(...)]. *)
Inductive VerifyStep :=
  | VDone (r : Response) (s : Server)
  | VAwaitCreate (data : UserData) (s : Server).

(** Up to the call of [storage.createUser].  A missing field of the body
    reads as the empty string: both are falsy. *)
Definition verifyOTP_begin (now : Z) (email otp : string) (s : Server)
    : VerifyStep :=
  if (falsy email || falsy otp)%bool
  then VDone (message 400 "Email and OTP are required") s
  else
    let key := toLowerCase email in
    match otpStore s !! key with
    | None => VDone NotFoundError s
    | Some stored =>
        if expires stored <? now
        then VDone ExpiredError (mkServer (delete key (otpStore s)) (timers s))
        else if 5 <=? attempts stored
        then VDone RateLimitedError
               (mkServer (delete key (otpStore s)) (timers s))
        else if negb (String.eqb (Ledger.otp stored) otp)
        then
          let stored' :=
            mkPending (Ledger.otp stored) (expires stored) (userData stored)
              (attempts stored + 1) in
          VDone (MismatchError (5 - attempts stored'))
            (mkServer (<[key := stored']> (otpStore s)) (timers s))
        else VAwaitCreate (userData stored) s
    end.

Definition verified (u : CreatedUser) : Response :=
  let token := generateToken (cu_id u) in
  mkResponse 201
    (JObj [("message", JStr "Email verified! Account created successfully.");
           ("user", userResponse u);
           ("token", JStr token)])
    [("auth_token", token)].

(** From the moment [storage.createUser] settles. *)
Definition verifyOTP_resume (email : string) (created : Awaited CreatedUser)
    (s : Server) : Response * Server :=
  match created with
  | Rejected => (message 500 "Verification failed", s)
  | Resolved u =>
      (verified u,
       mkServer (delete (toLowerCase email) (otpStore s)) (timers s))
  end.

(** A confirmation that runs with nothing in between its two segments. *)
Definition verifyOTP (now : Z) (email otp : string)
    (created : Awaited CreatedUser) (s : Server) : Response * Server :=
  match verifyOTP_begin now email otp s with
  | VDone r s' => (r, s')
  | VAwaitCreate _ s' => verifyOTP_resume email created s'
  end.

(** ** resendOTP *)

Definition resendAck : Response :=
  reply 200
    [("message", JStr "New verification code sent! Check server console.");
     ("devNote",
      JStr "For development: Check server console for new OTP code")].

Definition resendOTP (now : Z) (email : string) (entropy : Z) (s : Server)
    : Response * Server :=
  if falsy email then (message 400 "Email is required", s)
  else
    let key := toLowerCase email in
    match otpStore s !! key with
    | None => (NotFoundError, s)
    | Some stored =>
        let newOTP := generateOTP entropy in
        let stored' :=
          mkPending newOTP (now + codeLifetime) (userData stored) 0 in
        (resendAck, mkServer (<[key := stored']> (otpStore s)) (timers s))
    end.

(** Consecutive confirmations for one email, each run to its end before
    the next starts; [created] is what [storage.createUser] resolves to
    for a submission that reaches it. *)
Fixpoint verifyAll (email : string) (created : Awaited CreatedUser)
    (tries : list (Z * string)) (s : Server) : list Response * Server :=
  match tries with
  | [] => ([], s)
  | (now, code) :: rest =>
      let '(r, s1) := verifyOTP now email code created s in
      let '(rs, s2) := verifyAll email created rest s1 in
      (r :: rs, s2)
  end.

End Handlers.

(** A submission that is not for the pending code. *)
Definition wrongTry (p : Pending) (try : Z * string) : Prop :=
  try.2 <> "" /\ try.2 <> otp p /\ try.1 <= expires p.

(** The replies to [n] wrong submissions in a row, the counter being at
    [a] before the first. *)
Fixpoint countdown (a : Z) (n : nat) : list Response :=
  match n with
  | O => []
  | S n' => MismatchError (5 - (a + 1)) :: countdown (a + 1) n'
  end.

(** ** Sample data *)

Definition sampleData : UserData :=
  mkUserData "user@test.com" "Ann" "Lee" "$2b$10$hash" "local" "free"
    10 5 false 0 None.

Definition samplePending : Pending := mkPending "123456" 300000 sampleData 0.

(** A ledger holding one record, issued at time 0. *)
Definition sampleServer : Server :=
  mkServer {[ "user@test.com" := samplePending ]}
    [(600000, "user@test.com")].

Definition fiveWrong : list (Z * string) :=
  [(1000, "000000"); (2000, "111111"); (3000, "222222");
   (4000, "333333"); (5000, "444444")].

Definition sampleBody : RegisterBody :=
  mkRegisterBody (Some "Ann") (Some "Lee") (Some "User@Test.com")
    (Some "correct horse") None.

Definition sampleBody' : RegisterBody :=
  mkRegisterBody None None (Some "USER@test.com")
    (Some "battery staple") (Some "INDIE2025").

Definition sampleAccount : CreatedUser :=
  mkCreatedUser 1
    [("email", JStr "user@test.com"); ("password", JStr "$2b$10$hash");
     ("tier", JStr "free")].

(** Stand-ins for the collaborators. *)
Definition anyEmail (e : string) : bool := true.
Definition sampleToken (id : Z) : string := "token-" ++ toString id.

(** ** The ledger as a transition system *)

(** What can happen to the ledger: a registration, with what its awaits
    resolved to; the two segments of a confirmation; a reissue; a turn
    of the event loop, which runs the timers that are due.  The second
    segment of a confirmation is allowed at any time and for any email:
    that only adds runs to the ones the server can make. *)
Inductive Request :=
  | Register (b : RegisterBody) (existing : Awaited bool)
      (hashed : Awaited string) (promo : Awaited bool) (entropy : Z)
  | VerifyBegin (email otp : string)
  | VerifyResume (email : string) (created : Awaited CreatedUser)
  | Resend (email : string) (entropy : Z)
  | Tick.

Section Runs.

Variable isEmail : string -> bool.
Variable generateToken : Z -> string.

(** The state a request leaves behind when it is served at [now]. *)
Definition handle (now : Z) (r : Request) (s : Server) : Server :=
  match r with
  | Register b existing hashed promo entropy =>
      (registerWithOTP isEmail now b existing hashed promo entropy s).2
  | VerifyBegin email otp =>
      match verifyOTP_begin now email otp s with
      | VDone _ s' => s'
      | VAwaitCreate _ s' => s'
      end
  | VerifyResume email created =>
      (verifyOTP_resume generateToken email created s).2
  | Resend email entropy => (resendOTP now email entropy s).2
  | Tick => runTimers now s
  end.

(** The states of a server that started with an empty store. *)
Inductive reachable : Server -> Prop :=
  | reachable_start : reachable (mkServer ∅ [])
  | reachable_handle (s : Server) (now : Z) (r : Request) :
      reachable s -> reachable (handle now r s).

End Runs.

(** The two tiers a payload can be prepared for. *)
Definition proTier (d : UserData) : Prop :=
  tier d = "pro" /\ totalPages d = -1 /\ maxShotsPerScene d = -1
  /\ canGenerateStoryboards d = true.

Definition freeTier (d : UserData) : Prop :=
  tier d = "free" /\ totalPages d = 10 /\ maxShotsPerScene d = 5
  /\ canGenerateStoryboards d = false.

(** The top-level properties of a reply's body. *)
Definition bodyFields (r : Response) : list (string * json) :=
  match body r with
  | JObj fields => fields
  | _ => []
  end.

(** The object under a key of a list of properties. *)
Fixpoint objectAt (key : string) (fields : list (string * json))
    : list (string * json) :=
  match fields with
  | [] => []
  | (k, v) :: rest =>
      if String.eqb k key
      then match v with JObj fs => fs | _ => [] end
      else objectAt key rest
  end.

(** A run of the sample server: a registration, then a wrong code. *)
Definition sampleRun : Server :=
  handle anyEmail sampleToken 2000 (VerifyBegin "User@Test.com" "000000")
    (handle anyEmail sampleToken 0
       (Register sampleBody (Resolved false) (Resolved "h1") Rejected 5)
       (mkServer ∅ [])).

Definition sampleRunRecord : Pending :=
  mkPending "100005" 300000
    (prepareUserData sampleBody "User@Test.com" "h1" Rejected) 1.

End Ledger.

(* ===================================================================== *)
(** * The session reconciler (client) *)
(* ===================================================================== *)

Module Reconciler.
Import JS.

Inductive AuthState := loading | authenticated | unauthenticated | disabled.

Record Notifications := mkNotifications {
  n_email : option bool;
  n_parsing : option bool;
  n_marketing : option bool
}.

Record Appearance := mkAppearance {
  a_theme : option string;
  a_language : option string;
  a_timezone : option string
}.

Record Preferences := mkPreferences {
  notifications : option Notifications;
  appearance : option Appearance
}.

(** [AuthUser].  An optional property that is [undefined] is [None];
    [displayName] is [None] when it is [null]. *)
Record AuthUser := mkAuthUser {
  id : string;
  email : string;
  displayName : option string;
  provider : string;
  tier : option string;
  usedPages : option Z;
  totalPages : option Z;
  maxShotsPerScene : option Z;
  canGenerateStoryboards : option bool;
  firstName : option string;
  lastName : option string;
  preferences : option Preferences
}.

(** [Partial<AuthUser>]: a key that is absent is [None]. *)
Record PartialUser := mkPartialUser {
  p_id : option string;
  p_email : option string;
  p_displayName : option (option string);
  p_provider : option string;
  p_tier : option (option string);
  p_usedPages : option (option Z);
  p_totalPages : option (option Z);
  p_maxShotsPerScene : option (option Z);
  p_canGenerateStoryboards : option (option bool);
  p_firstName : option (option string);
  p_lastName : option (option string);
  p_preferences : option (option Preferences)
}.

#[global] Instance AuthState_eq_dec : EqDecision AuthState.
Proof. solve_decision. Defined.
#[global] Instance Notifications_eq_dec : EqDecision Notifications.
Proof. solve_decision. Defined.
#[global] Instance Appearance_eq_dec : EqDecision Appearance.
Proof. solve_decision. Defined.
#[global] Instance Preferences_eq_dec : EqDecision Preferences.
Proof. solve_decision. Defined.
#[global] Instance AuthUser_eq_dec : EqDecision AuthUser.
Proof. solve_decision. Defined.

(** What the page can observe of the manager, in the order it happens. *)
Inductive Event :=
  | Notify (listener : nat) (st : AuthState) (u : option AuthUser)
  | SetItem (key value : string)
  | RemoveItem (key : string)
  | SessionClear
  | IdPSubscribe
  | IdPUnsubscribe
  | IdPSignOut
  | GetIdToken (uid : string)
  | BackendLogout
  | BackendRefresh
  | ClearCookies.

(** Callbacks waiting in [setTimeout]. *)
Inductive Task := TierValidation | Reload.

(** The fields of the [AuthManager] instance. *)
Record AuthManager := mkAuthManager {
  authState : AuthState;
  user : option AuthUser;
  listeners : list nat;
  unsubscribeAuth : bool;
  isLoggedOut : bool;
  pendingCouponCode : option string;
  lastNotifiedState : option (AuthState * option AuthUser)
}.

(** The instance inside its page. *)
Record World := mkWorld {
  mgr : AuthManager;
  localStorage : gmap string string;
  timers : list (Z * Task);
  trace : list Event
}.

(** ** Field updates *)

Definition withMgr (f : AuthManager -> AuthManager) (w : World) : World :=
  mkWorld (f (mgr w)) (localStorage w) (timers w) (trace w).

Definition setAuthState (st : AuthState) (m : AuthManager) : AuthManager :=
  mkAuthManager st (user m) (listeners m) (unsubscribeAuth m)
    (isLoggedOut m) (pendingCouponCode m) (lastNotifiedState m).

Definition setUser (u : option AuthUser) (m : AuthManager) : AuthManager :=
  mkAuthManager (authState m) u (listeners m) (unsubscribeAuth m)
    (isLoggedOut m) (pendingCouponCode m) (lastNotifiedState m).

Definition setUnsubscribeAuth (b : bool) (m : AuthManager) : AuthManager :=
  mkAuthManager (authState m) (user m) (listeners m) b
    (isLoggedOut m) (pendingCouponCode m) (lastNotifiedState m).

Definition setIsLoggedOut (b : bool) (m : AuthManager) : AuthManager :=
  mkAuthManager (authState m) (user m) (listeners m) (unsubscribeAuth m)
    b (pendingCouponCode m) (lastNotifiedState m).

Definition setPendingCouponCode (c : option string) (m : AuthManager)
    : AuthManager :=
  mkAuthManager (authState m) (user m) (listeners m) (unsubscribeAuth m)
    (isLoggedOut m) c (lastNotifiedState m).

Definition setLastNotifiedState (l : option (AuthState * option AuthUser))
    (m : AuthManager) : AuthManager :=
  mkAuthManager (authState m) (user m) (listeners m) (unsubscribeAuth m)
    (isLoggedOut m) (pendingCouponCode m) l.

Definition emit (es : list Event) (w : World) : World :=
  mkWorld (mgr w) (localStorage w) (timers w) (trace w ++ es).

Definition setItem (key value : string) (w : World) : World :=
  mkWorld (mgr w) (<[key := value]> (localStorage w)) (timers w)
    (trace w ++ [SetItem key value]).

Definition removeItem (key : string) (w : World) : World :=
  mkWorld (mgr w) (delete key (localStorage w)) (timers w)
    (trace w ++ [RemoveItem key]).

Definition setTimeout (now delay : Z) (t : Task) (w : World) : World :=
  mkWorld (mgr w) (localStorage w) (timers w ++ [(now + delay, t)]) (trace w).

(** ** notifyListeners *)

(** [JSON.stringify(a) === JSON.stringify(b)] on two snapshots.  Every
    snapshot is built by [createBackendSession] or by spreading over the
    previous one, so the keys come in one order, and a property that is
    [undefined] is not printed: the two strings are equal exactly when the
    snapshots agree on every field. *)
Definition sameJSON (a b : option AuthUser) : bool := bool_decide (a = b).

Definition notifyListeners (w : World) : World :=
  let m := mgr w in
  let unchanged :=
    match lastNotifiedState m with
    | Some (st, u) => bool_decide (st = authState m) && sameJSON u (user m)
    | None => false
    end in
  if unchanged then w
  else
    emit (map (fun l => Notify l (authState m) (user m)) (listeners m))
      (withMgr (setLastNotifiedState (Some (authState m, user m))) w).

(** ** The logout lock *)

Definition lockTTL : Z := 120000.

(** [localStorage.getItem('auth_disabled') === 'true'] *)
Definition authDisabled (ls : gmap string string) : bool :=
  match ls !! "auth_disabled" with
  | Some v => String.eqb v "true"
  | None => false
  end.

(** [t && (Date.now() - parseInt(t)) < 120000] for
    [t = localStorage.getItem('logout_timestamp')]. *)
Definition recentLogout (now : Z) (ls : gmap string string) : bool :=
  match ls !! "logout_timestamp" with
  | Some t => negb (falsy t) && elapsedBelow now (parseInt t) lockTTL
  | None => false
  end.

(** The lock as [initialize] reads it at start-up: set and unexpired. *)
Definition lockActive (now : Z) (ls : gmap string string) : bool :=
  authDisabled ls && recentLogout now ls.

(** ** The listener installed by initialize *)

Record FirebaseUser := mkFirebaseUser {
  uid : string;
  fb_email : option string
}.

(** The guard of the listener: disabled, logged out, a recent logout,
    or the disabled mark in storage. *)
Definition blocked (now : Z) (w : World) : bool :=
  bool_decide (authState (mgr w) = disabled)
  || isLoggedOut (mgr w)
  || recentLogout now (localStorage w)
  || authDisabled (localStorage w).

(** The user record of the [firebase-sync] response. *)
Record BackendUser := mkBackendUser {
  bu_id : string;
  bu_email : string;
  bu_displayName : option string;
  bu_provider : option string;
  bu_tier : option string;
  bu_usedPages : option Z;
  bu_totalPages : option Z;
  bu_maxShotsPerScene : option Z;
  bu_canGenerateStoryboards : option bool
}.

(** [s.split('@')[0]] *)
Fixpoint beforeAt (s : string) : string :=
  match s with
  | String c r => if Ascii.eqb c "@" then EmptyString else String c (beforeAt r)
  | EmptyString => EmptyString
  end.

(** [a || b] on strings, [a] possibly missing. *)
Definition orElse (a : option string) (b : string) : string :=
  match a with
  | Some s => if falsy s then b else s
  | None => b
  end.

Definition sessionUser (d : BackendUser) : AuthUser :=
  mkAuthUser (bu_id d) (bu_email d)
    (Some (orElse (bu_displayName d)
             (orElse (Some (beforeAt (bu_email d))) "User")))
    (orElse (bu_provider d) "password")
    (bu_tier d) (bu_usedPages d) (bu_totalPages d)
    (bu_maxShotsPerScene d) (bu_canGenerateStoryboards d)
    None None None.

Definition settleDelay : Z := 2000.

(** [scheduleAutomaticTierValidation] *)
Definition scheduleAutomaticTierValidation (now : Z) (w : World) : World :=
  match user (mgr w) with
  | None => w
  | Some _ => setTimeout now settleDelay TierValidation w
  end.

(** The last segment of [createBackendSession], from the moment the
    token and the [firebase-sync] exchange have settled: [Some (Some d)] for an ok
    response with body [d], [Some None] for a response that is not ok,
    [None] for anything thrown on the way. *)
Definition createBackendSession_finish (now : Z)
    (result : option (option BackendUser)) (w : World) : World :=
  let w1 :=
    match result with
    | Some (Some d) =>
        let w2 := withMgr (setUser (Some (sessionUser d))) w in
        let w3 := withMgr (setAuthState authenticated) w2 in
        let w4 := withMgr (setPendingCouponCode None) w3 in
        scheduleAutomaticTierValidation now w4
    | _ =>
        withMgr (setPendingCouponCode None)
          (withMgr (setUser None)
             (withMgr (setAuthState unauthenticated) w))
    end in
  notifyListeners w1.

(** Where the first segment of the listener ends. *)
Inductive ListenerStep :=
  | LDone (w : World)
  | LAwaitForceSignOut (w : World)
  | LAwaitSession (fb : FirebaseUser) (w : World).

(** The tail of the blocking branch: lines after [await forceSignOut()]. *)
Definition listener_block (w : World) : World :=
  notifyListeners
    (withMgr (setUser None) (withMgr (setAuthState disabled) w)).

(** The listener up to its first [await].  [fb] is the identity the
    provider reports: [Some] for a sign-in, [None] for a sign-out. *)
Definition listener_begin (now : Z) (fb : option FirebaseUser) (w : World)
    : ListenerStep :=
  if blocked now w then
    match fb with
    | Some _ => LAwaitForceSignOut (emit [IdPSignOut] w)
    | None => LDone (listener_block w)
    end
  else
    match fb with
    | Some u => LAwaitSession u (emit [GetIdToken (uid u)] w)
    | None =>
        LDone (notifyListeners
                 (withMgr (setUser None)
                    (withMgr (setAuthState unauthenticated) w)))
    end.

(** A notification handled with nothing in between its segments. *)
Definition listener (now : Z) (fb : option FirebaseUser)
    (result : option (option BackendUser)) (w : World) : World :=
  match listener_begin now fb w with
  | LDone w' => w'
  | LAwaitForceSignOut w' => listener_block w'
  | LAwaitSession _ w' => createBackendSession_finish now result w'
  end.

(** ** initialize and enableAuth *)

Definition subscribe (w : World) : World :=
  emit [IdPSubscribe] (withMgr (setUnsubscribeAuth true) w).

Definition initialize (now : Z) (w : World) : World :=
  if authDisabled (localStorage w) then
    if recentLogout now (localStorage w) then
      notifyListeners
        (withMgr (setIsLoggedOut true)
           (withMgr (setUser None) (withMgr (setAuthState disabled) w)))
    else
      subscribe
        (withMgr (setIsLoggedOut false)
           (removeItem "logout_timestamp" (removeItem "auth_disabled" w)))
  else subscribe w.

Definition unsubscribe (w : World) : World :=
  if unsubscribeAuth (mgr w) then emit [IdPUnsubscribe] w else w.

Definition enableAuth (now : Z) (w : World) : World :=
  let w1 := removeItem "logout_timestamp" (removeItem "auth_disabled" w) in
  let w2 := withMgr (setAuthState loading) (withMgr (setIsLoggedOut false) w1) in
  initialize now (unsubscribe (notifyListeners w2)).

(** ** logout *)

(** The first segment of [logout], up to [await signOut(auth)]. *)
Definition logout_begin (now : Z) (w : World) : World :=
  let w1 := withMgr (setIsLoggedOut true) w in
  let w2 := withMgr (setAuthState disabled) w1 in
  let w3 := withMgr (setUser None) w2 in
  let w4 := setItem "auth_disabled" "true" w3 in
  let w5 := setItem "logout_timestamp" (toString now) w4 in
  let w6 := notifyListeners w5 in
  let w7 := withMgr (setUnsubscribeAuth false) (unsubscribe w6) in
  emit [IdPSignOut] w7.

(** [key.startsWith('firebase:') || key.includes('firebase') ||
    key.includes('auth')] *)
Fixpoint includes (needle s : string) : bool :=
  String.prefix needle s ||
  match s with
  | String _ r => includes needle r
  | EmptyString => false
  end.

Definition isAuthKey (key : string) : bool :=
  String.prefix "firebase:" key || includes "firebase" key
  || includes "auth" key.

(** [clearFirebaseData] *)
Definition clearFirebaseData (w : World) : World :=
  let firebaseKeys :=
    List.filter isAuthKey (map fst (map_to_list (localStorage w))) in
  let w1 := fold_left (fun w k => removeItem k w) firebaseKeys w in
  let w2 := removeItem "logout_timestamp" (removeItem "auth_disabled" w1) in
  emit [SessionClear; ClearCookies] w2.

Definition scheduleReload (now : Z) (w : World) : World :=
  setTimeout now 100 Reload w.

(** From the moment [signOut(auth)] settles: [true] when it resolved. *)
Definition logout_afterSignOut (now : Z) (resolved : bool) (w : World)
    : World :=
  if resolved then emit [BackendLogout] w
  else scheduleReload now (clearFirebaseData w).

(** From the moment the logout request settles: [Some ok] for a
    response, [None] when [fetch] threw. *)
Definition logout_afterFetch (now : Z) (response : option bool) (w : World)
    : World :=
  match response with
  | Some ok =>
      let w1 := if ok then emit [ClearCookies] w else w in
      scheduleReload now (clearFirebaseData w1)
  | None => scheduleReload now (clearFirebaseData w)
  end.

(** ** updateUserData *)

(** [{ ...u, ...p }] *)
Definition spread (u : AuthUser) (p : PartialUser) : AuthUser :=
  mkAuthUser
    (default (id u) (p_id p))
    (default (email u) (p_email p))
    (default (displayName u) (p_displayName p))
    (default (provider u) (p_provider p))
    (default (tier u) (p_tier p))
    (default (usedPages u) (p_usedPages p))
    (default (totalPages u) (p_totalPages p))
    (default (maxShotsPerScene u) (p_maxShotsPerScene p))
    (default (canGenerateStoryboards u) (p_canGenerateStoryboards p))
    (default (firstName u) (p_firstName p))
    (default (lastName u) (p_lastName p))
    (default (preferences u) (p_preferences p)).

(** [{ ...p, tier: 'pro', totalPages: -1, maxShotsPerScene: -1,
    canGenerateStoryboards: true }] *)
Definition forcePro (p : PartialUser) : PartialUser :=
  mkPartialUser (p_id p) (p_email p) (p_displayName p) (p_provider p)
    (Some (Some "pro")) (p_usedPages p) (Some (Some (-1))) (Some (Some (-1)))
    (Some (Some true)) (p_firstName p) (p_lastName p) (p_preferences p).

Definition updateUserData (userData : PartialUser) (w : World) : World :=
  match user (mgr w) with
  | None => w
  | Some u =>
      let isPremiumDemo := String.eqb (email u) "premium@demo.com" in
      let userData := if isPremiumDemo then forcePro userData else userData in
      notifyListeners (withMgr (setUser (Some (spread u userData))) w)
  end.

(** [refreshFromDatabase], from the moment [/api/auth/user] has
    answered: [Some p] for an ok response with body [p]. *)
Definition refreshFromDatabase_finish (response : option PartialUser)
    (w : World) : World :=
  match response with
  | Some p => updateUserData p w
  | None => w
  end.

(** ** validateAndUpdateTier *)

(** [result.user] of the [refresh-session] response. *)
Record FreshUser := mkFreshUser {
  f_tier : option string;
  f_totalPages : option Z;
  f_maxShotsPerScene : option Z;
  f_canGenerateStoryboards : option bool
}.

(** The test of the [if]: the three fields the code compares. *)
Definition tierDiffers (fresh : FreshUser) (u : AuthUser) : bool :=
  negb (bool_decide (f_tier fresh = tier u))
  || negb (bool_decide
             (f_canGenerateStoryboards fresh = canGenerateStoryboards u))
  || negb (bool_decide (f_maxShotsPerScene fresh = maxShotsPerScene u)).

(** [{ ...u, tier: .., totalPages: .., maxShotsPerScene: ..,
    canGenerateStoryboards: .. }] *)
Definition withFreshTier (u : AuthUser) (fresh : FreshUser) : AuthUser :=
  mkAuthUser (id u) (email u) (displayName u) (provider u)
    (f_tier fresh) (usedPages u) (f_totalPages fresh)
    (f_maxShotsPerScene fresh) (f_canGenerateStoryboards fresh)
    (firstName u) (lastName u) (preferences u).

(** Up to the [fetch]: [None] when there is no user and the method
    returns at once. *)
Definition validateAndUpdateTier_begin (w : World) : option World :=
  match user (mgr w) with
  | None => None
  | Some _ => Some (emit [BackendRefresh] w)
  end.

(** From the moment the refresh has answered: [Some fresh] for an ok
    response carrying [fresh].  Reading [this.user.tier] when the user
    is gone throws into the [catch], which only logs. *)
Definition validateAndUpdateTier_finish (response : option FreshUser)
    (w : World) : World :=
  match response with
  | None => w
  | Some fresh =>
      match user (mgr w) with
      | None => w
      | Some u =>
          if tierDiffers fresh u
          then notifyListeners
                 (withMgr (setUser (Some (withFreshTier u fresh))) w)
          else w
      end
  end.

Definition validateAndUpdateTier (response : option FreshUser) (w : World)
    : World :=
  match validateAndUpdateTier_begin w with
  | None => w
  | Some w' => validateAndUpdateTier_finish response w'
  end.

(** ** subscription of observers *)

(** [onAuthStateChange]: the callback is pushed and called at once. *)
Definition onAuthStateChange (l : nat) (w : World) : World :=
  let m := mgr w in
  emit [Notify l (authState m) (user m)]
    (withMgr (fun m => mkAuthManager (authState m) (user m)
                         (listeners m ++ [l]) (unsubscribeAuth m)
                         (isLoggedOut m) (pendingCouponCode m)
                         (lastNotifiedState m)) w).

(** The notifications in a trace. *)
Definition emitted (es : list Event)
    : list (AuthState * option AuthUser) :=
  omap (fun e => match e with
                 | Notify _ st u => Some (st, u)
                 | _ => None
                 end) es.

(** A freshly constructed manager, before the constructor runs
    [initialize]. *)
Definition newManager : AuthManager :=
  mkAuthManager loading None [] false false None None.

(** The last notification agrees with the fields, when there was one:
    what every method re-establishes before it gives control back. *)
Definition synced (w : World) : Prop :=
  match lastNotifiedState (mgr w) with
  | Some l => l = (authState (mgr w), user (mgr w))
  | None => True
  end.

(** An event that hands no user to a listener. *)
Definition carriesNoUser (e : Event) : Prop :=
  match e with
  | Notify _ _ (Some _) => False
  | _ => True
  end.

(** ** Sample data *)

Definition freeUser : AuthUser :=
  mkAuthUser "42" "user@test.com" (Some "user") "password"
    (Some "free") (Some 0) (Some 10) (Some 5) (Some false) None None None.

Definition demoUser : AuthUser :=
  mkAuthUser "7" "premium@demo.com" (Some "premium") "password"
    (Some "free") (Some 3) (Some 10) (Some 5) (Some false) None None None.

(** A signed-in page with two observers. *)
Definition signedIn (u : AuthUser) : World :=
  mkWorld
    (mkAuthManager authenticated (Some u) [1%nat; 2%nat] true false None
       (Some (authenticated, Some u)))
    ∅ [] [].

(** What a refresh answers when only the page allowance has changed. *)
Definition freshMorePages : FreshUser :=
  mkFreshUser (Some "free") (Some 20) (Some 5) (Some false).

(** A partial record that carries tier fields of the free tier. *)
Definition freePartial : PartialUser :=
  mkPartialUser None None None None (Some (Some "free")) None
    (Some (Some 10)) (Some (Some 5)) (Some (Some false)) None None None.

(** A sign-in the provider reports, and what the backend would answer. *)
Definition sampleIdentity : FirebaseUser :=
  mkFirebaseUser "uid-42" (Some "user@test.com").

Definition sampleSession : BackendUser :=
  mkBackendUser "42" "user@test.com" None None (Some "pro") (Some 0)
    (Some (-1)) (Some (-1)) (Some true).

(** ** signUpWithEmail *)

(** Up to [await createUserWithEmailAndPassword(...)]: the coupon is
    parked for the listener to find. *)
Definition signUpWithEmail_begin (isPremiumCoupon : bool) (w : World)
    : World :=
  if isPremiumCoupon
  then withMgr (setPendingCouponCode (Some "INDIE2025")) w
  else w.

(** The [catch]: the provider refused the sign-up. *)
Definition signUpWithEmail_failed (w : World) : World :=
  withMgr (setPendingCouponCode None) w.

(** ** The manager as a transition system *)

(** [new AuthManager()] in a page whose storage is [ls]: the fields as
    declared, then [initialize]. *)
Definition construct (now : Z) (ls : gmap string string) : World :=
  initialize now (mkWorld newManager ls [] []).

(** The function [onAuthStateChange] returns: the callback is filtered
    out of the list. *)
Definition removeListener (l : nat) (w : World) : World :=
  withMgr (fun m => mkAuthManager (authState m) (user m)
                      (List.filter (fun l' => negb (Nat.eqb l' l))
                         (listeners m))
                      (unsubscribeAuth m) (isLoggedOut m)
                      (pendingCouponCode m) (lastNotifiedState m)) w.

(** What can run on the page, one synchronous segment at a time.  A
    segment that follows an [await] may run at any later time, whatever
    ran in between; it is allowed here even when nothing is waiting for
    it, which only adds runs to the ones the page can make. *)
Inductive Action :=
  | AListenerBegin (fb : option FirebaseUser)
  | AListenerBlock
  | ASessionFinish (result : option (option BackendUser))
  | ALogoutBegin
  | ALogoutAfterSignOut (resolved : bool)
  | ALogoutAfterFetch (response : option bool)
  | AEnableAuth
  | AUpdateUserData (p : PartialUser)
  | ARefreshFinish (response : option PartialUser)
  | ATierBegin
  | ATierFinish (response : option FreshUser)
  | ASignUpBegin (isPremiumCoupon : bool)
  | ASignUpFailed
  | ASubscribe (l : nat)
  | AUnsubscribe (l : nat).

Definition perform (now : Z) (a : Action) (w : World) : World :=
  match a with
  | AListenerBegin fb =>
      match listener_begin now fb w with
      | LDone w' | LAwaitForceSignOut w' | LAwaitSession _ w' => w'
      end
  | AListenerBlock => listener_block w
  | ASessionFinish result => createBackendSession_finish now result w
  | ALogoutBegin => logout_begin now w
  | ALogoutAfterSignOut resolved => logout_afterSignOut now resolved w
  | ALogoutAfterFetch response => logout_afterFetch now response w
  | AEnableAuth => enableAuth now w
  | AUpdateUserData p => updateUserData p w
  | ARefreshFinish response => refreshFromDatabase_finish response w
  | ATierBegin => default w (validateAndUpdateTier_begin w)
  | ATierFinish response => validateAndUpdateTier_finish response w
  | ASignUpBegin isPremiumCoupon => signUpWithEmail_begin isPremiumCoupon w
  | ASignUpFailed => signUpWithEmail_failed w
  | ASubscribe l => onAuthStateChange l w
  | AUnsubscribe l => removeListener l w
  end.

(** The states of a page since its manager was constructed. *)
Inductive reachable : World -> Prop :=
  | reachable_construct (now : Z) (ls : gmap string string) :
      reachable (construct now ls)
  | reachable_perform (w : World) (now : Z) (a : Action) :
      reachable w -> reachable (perform now a w).

Fixpoint performAll (acts : list (Z * Action)) (w : World) : World :=
  match acts with
  | [] => w
  | (now, a) :: rest => performAll rest (perform now a w)
  end.

(** The last pair a listener was called with, [acc] when it never was. *)
Fixpoint lastFor (l : nat) (es : list Event)
    (acc : option (AuthState * option AuthUser))
    : option (AuthState * option AuthUser) :=
  match es with
  | [] => acc
  | Notify l' st u :: rest =>
      lastFor l rest (if Nat.eqb l' l then Some (st, u) else acc)
  | _ :: rest => lastFor l rest acc
  end.

Definition lastSeen (l : nat) (w : World)
    : option (AuthState * option AuthUser) :=
  lastFor l (trace w) None.

(** Every listener on the list has been called, and the last time with
    the state and the user as they are now. *)
Definition upToDate (w : World) : Prop :=
  forall l, In l (listeners (mgr w)) ->
    lastSeen l w = Some (authState (mgr w), user (mgr w)).

(** How many times a listener was called. *)
Fixpoint timesNotified (l : nat) (es : list Event) : nat :=
  match es with
  | [] => 0
  | Notify l' _ _ :: rest =>
      (if Nat.eqb l' l then 1 else 0) + timesNotified l rest
  | _ :: rest => timesNotified l rest
  end.

(** Subscriptions to the provider opened and not closed. *)
Fixpoint liveSubscriptions (es : list Event) : Z :=
  match es with
  | [] => 0
  | IdPSubscribe :: rest => 1 + liveSubscriptions rest
  | IdPUnsubscribe :: rest => liveSubscriptions rest - 1
  | _ :: rest => liveSubscriptions rest
  end.

(** Two worlds a listener cannot tell apart: the same list of listeners,
    the same last notification, and every listener last called with the
    same pair. *)
Definition sameAudience (w w' : World) : Prop :=
  listeners (mgr w') = listeners (mgr w)
  /\ lastNotifiedState (mgr w') = lastNotifiedState (mgr w)
  /\ forall l, lastSeen l w' = lastSeen l w.

(** Events that call no listener. *)
Definition quiet_event (e : Event) : bool :=
  match e with Notify _ _ _ => false | _ => true end.

(** A user is held when the state is [authenticated], and none when it
    is [disabled] or [unauthenticated]. *)
Definition userMatchesState (w : World) : Prop :=
  (authState (mgr w) = authenticated -> user (mgr w) <> None)
  /\ (authState (mgr w) = disabled \/ authState (mgr w) = unauthenticated ->
      user (mgr w) = None).

(** The subscription the manager holds is the only one open. *)
Definition oneSubscription (w : World) : Prop :=
  liveSubscriptions (trace w) = if unsubscribeAuth (mgr w) then 1 else 0.

(** A run of the page: start-up with an empty storage, a first
    listener, a sign-in that the backend accepts, a second listener. *)
Definition sampleRun : World :=
  perform 30 (ASubscribe 2)
    (perform 20 (ASessionFinish (Some (Some sampleSession)))
       (perform 10 (ASubscribe 1) (construct 0 ∅))).

(** A partial record that carries a name and a counter, but no email. *)
Definition namePartial : PartialUser :=
  mkPartialUser None None (Some (Some "Ann")) None None (Some (Some 3))
    None None None (Some (Some "Ann")) None None.

End Reconciler.

(* ===================================================================== *)
(** * Properties of the built-ins *)
(* ===================================================================== *)

Module JSFacts.
Import JS.

Lemma allDigits_string_of_uint (d : uint) :
  allDigits (NilEmpty.string_of_uint d) = true.
Proof. induction d; simpl; auto. Qed.

Lemma digitPrefix_allDigits (s : string) :
  allDigits s = true -> digitPrefix s = s.
Proof.
  induction s as [|c r IH]; simpl; [done|].
  intros [Hc Hr]%andb_true_iff. rewrite Hc. by rewrite IH.
Qed.

Lemma isDigit_cases (c : ascii) :
  isDigit c = true ->
  isSpace c = false /\ c <> "-"%char /\ c <> "+"%char /\
  Ascii.eqb c "x" = false /\ Ascii.eqb c "X" = false.
Proof.
  destruct c as [[|] [|] [|] [|] [|] [|] [|] [|]]; vm_compute;
    intros H; try discriminate H; repeat split; congruence.
Qed.

Lemma parseDec_digits (d : uint) :
  d <> Nil -> parseDec (NilEmpty.string_of_uint d) = Some (Z.of_uint d).
Proof.
  intros Hd. unfold parseDec.
  rewrite digitPrefix_allDigits by apply allDigits_string_of_uint.
  destruct (NilEmpty.string_of_uint d) as [|c r] eqn:E.
  - by destruct d.
  - by rewrite <- E, NilEmpty.usu.
Qed.

Lemma parseMagnitude_digits (s : string) :
  allDigits s = true -> parseMagnitude s = parseDec s.
Proof.
  destruct s as [|c [|c' r]]; try done.
  simpl. intros [_ [Hc' _]%andb_true_iff]%andb_true_iff.
  destruct (isDigit_cases c' Hc') as (_ & _ & _ & -> & ->).
  by rewrite andb_false_r.
Qed.

(** On a non-empty run of digits [parseInt] is the decimal reading. *)
Lemma parseInt_digits (s : string) :
  allDigits s = true -> s <> EmptyString -> parseInt s = parseDec s.
Proof.
  intros Hs Hne. destruct s as [|c r]; [done|].
  pose proof Hs as Hs'. simpl in Hs'. apply andb_true_iff in Hs' as [Hc Hr].
  destruct (isDigit_cases c Hc) as (Hsp & Hm & Hp & _).
  unfold parseInt. simpl trimStart. rewrite Hsp.
  unfold splitSign.
  destruct (Ascii.eqb_spec c "-"); [done|].
  destruct (Ascii.eqb_spec c "+"); [done|].
  rewrite parseMagnitude_digits by done. by destruct (parseDec _).
Qed.

Lemma to_uint_not_Nil (p : positive) : Pos.to_uint p <> Nil.
Proof.
  intros H. pose proof (DecimalPos.Unsigned.of_to p) as E.
  rewrite H in E. discriminate E.
Qed.

Lemma string_of_uint_pos (p : positive) :
  NilZero.string_of_uint (Pos.to_uint p)
  = NilEmpty.string_of_uint (Pos.to_uint p).
Proof.
  pose proof (to_uint_not_Nil p). by destruct (Pos.to_uint p).
Qed.

Lemma of_uint_to_uint (p : positive) : Z.of_uint (Pos.to_uint p) = Z.pos p.
Proof.
  change (Z.of_int (Z.to_int (Z.pos p)) = Z.pos p). apply DecimalZ.of_to.
Qed.

(** Reading back what [toString] printed. *)
Lemma parseInt_toString (z : Z) : parseInt (toString z) = Some z.
Proof.
  unfold toString. destruct z as [|p|p]; simpl.
  - reflexivity.
  - rewrite string_of_uint_pos, parseInt_digits.
    + rewrite parseDec_digits by apply to_uint_not_Nil.
      by rewrite of_uint_to_uint.
    + apply allDigits_string_of_uint.
    + pose proof (to_uint_not_Nil p). by destruct (Pos.to_uint p).
  - rewrite string_of_uint_pos. unfold parseInt. simpl.
    rewrite parseMagnitude_digits by apply allDigits_string_of_uint.
    rewrite parseDec_digits by apply to_uint_not_Nil.
    by rewrite of_uint_to_uint.
Qed.


Lemma lowerChar_idemp (c : ascii) : lowerChar (lowerChar c) = lowerChar c.
Proof. by destruct c as [[|] [|] [|] [|] [|] [|] [|] [|]]. Qed.

Lemma toLowerCase_idemp (s : string) :
  toLowerCase (toLowerCase s) = toLowerCase s.
Proof.
  induction s as [|c r IH]; simpl; [done|]. by rewrite lowerChar_idemp, IH.
Qed.

Lemma falsy_false (s : string) : s <> EmptyString -> falsy s = false.
Proof. by destruct s. Qed.

Lemma toString_not_empty (z : Z) : toString z <> EmptyString.
Proof.
  intros E. pose proof (parseInt_toString z) as H. rewrite E in H.
  discriminate H.
Qed.

End JSFacts.

(* ===================================================================== *)
(** * Properties of the verification ledger *)
(* ===================================================================== *)

Module LedgerFacts.
Import JS JSFacts Ledger.

(** ** Code generation *)

Lemma randomInt_range (min max entropy : Z) :
  min < max -> min <= randomInt min max entropy < max.
Proof.
  intros H. unfold randomInt.
  pose proof (Z.mod_pos_bound entropy (max - min)). lia.
Qed.

(** Every draw prints an integer between 100000 and 999998. *)
Lemma generateOTP_range (entropy : Z) :
  exists n, generateOTP entropy = toString n /\ 100000 <= n <= 999998.
Proof.
  exists (randomInt 100000 999999 entropy). split; [done|].
  pose proof (randomInt_range 100000 999999 entropy). lia.
Qed.

(** Every integer between 100000 and 999998 is the print of some draw. *)
Lemma generateOTP_reaches (n : Z) :
  100000 <= n <= 999998 -> generateOTP (n - 100000) = toString n.
Proof.
  intros H. unfold generateOTP, randomInt. f_equal.
  rewrite Z.mod_small; lia.
Qed.


(** ** Timers *)

Lemma evict_all_absent (l : list (Z * string)) (m : gmap string Pending)
    (key : string) :
  m !! key = None -> fold_left (fun m t => evict t.2 m) l m !! key = None.
Proof.
  revert m. induction l as [|t l IH]; intros m Hm; simpl; [done|].
  apply IH. unfold evict.
  destruct (decide (t.2 = key)) as [->|Hne].
  - apply lookup_delete_eq.
  - by rewrite lookup_delete_ne.
Qed.

Lemma evict_all_member (l : list (Z * string)) (m : gmap string Pending)
    (t : Z * string) :
  In t l -> fold_left (fun m t => evict t.2 m) l m !! t.2 = None.
Proof.
  revert m. induction l as [|t' l IH]; intros m Hin; simpl; [done|].
  destruct Hin as [->|Hin].
  - apply evict_all_absent. apply lookup_delete_eq.
  - by apply IH.
Qed.

(** A timer that is due deletes whatever its key holds. *)
Lemma runTimers_due (now due : Z) (key : string) (s : Server) :
  In (due, key) (timers s) -> due <= now ->
  otpStore (runTimers now s) !! key = None.
Proof.
  intros Hin Hdue. unfold runTimers. simpl.
  apply (evict_all_member _ _ (due, key)).
  apply filter_In. split; [done|]. unfold isDue. simpl. lia.
Qed.

(** A key no due timer names is left alone. *)
Lemma evict_all_other (l : list (Z * string)) (m : gmap string Pending)
    (key : string) :
  (forall t, In t l -> t.2 <> key) ->
  fold_left (fun m t => evict t.2 m) l m !! key = m !! key.
Proof.
  revert m. induction l as [|t l IH]; intros m Hl; simpl; [done|].
  rewrite IH by (intros t' Ht'; apply Hl; by right).
  unfold evict. apply lookup_delete_ne. apply Hl. by left.
Qed.

Lemma runTimers_not_due (now : Z) (key : string) (s : Server) :
  (forall due, In (due, key) (timers s) -> now < due) ->
  otpStore (runTimers now s) !! key = otpStore s !! key.
Proof.
  intros H. unfold runTimers. simpl. apply evict_all_other.
  intros [due k] [Hin Hd]%filter_In Hk. simpl in Hk. subst k.
  specialize (H due Hin). unfold isDue in Hd. simpl in Hd. lia.
Qed.

Section Handlers.

Variable isEmail : string -> bool.
Variable generateToken : Z -> string.

Local Abbreviation registerWithOTP := (registerWithOTP isEmail).
Local Abbreviation parseRegister := (parseRegister isEmail).
Local Abbreviation verifyOTP := (verifyOTP generateToken).
Local Abbreviation verifyAll := (verifyAll generateToken).
Local Abbreviation verified := (verified generateToken).

(** ** Branches of verifyOTP *)

(** Enters [verifyOTP] for a request that carries both fields and finds
    the record [Hs], then settles the comparisons on the way. *)
Local Ltac enter_verifyOTP He Hc Hs :=
  unfold Ledger.verifyOTP, verifyOTP_begin;
  rewrite (falsy_false _ He), (falsy_false _ Hc), Hs; simpl.

Local Ltac settle_checks :=
  repeat match goal with
    | |- context [?a <? ?b] => destruct (Z.ltb_spec a b); try lia
    | |- context [?a <=? ?b] => destruct (Z.leb_spec a b); try lia
    | |- context [String.eqb ?a ?b] =>
        destruct (String.eqb_spec a b); try congruence
    end;
  try done.

Lemma verifyOTP_missing (now : Z) (email code : string)
    (created : Awaited CreatedUser) (s : Server) :
  email <> "" -> code <> "" ->
  otpStore s !! toLowerCase email = None ->
  verifyOTP now email code created s = (NotFoundError, s).
Proof. intros He Hc Hs. by enter_verifyOTP He Hc Hs. Qed.

Lemma verifyOTP_expired (now : Z) (email code : string)
    (created : Awaited CreatedUser) (s : Server) (p : Pending) :
  email <> "" -> code <> "" ->
  otpStore s !! toLowerCase email = Some p ->
  expires p < now ->
  verifyOTP now email code created s
  = (ExpiredError,
     mkServer (delete (toLowerCase email) (otpStore s)) (timers s)).
Proof. intros He Hc Hs Hexp. enter_verifyOTP He Hc Hs. settle_checks. Qed.

Lemma verifyOTP_rateLimited (now : Z) (email code : string)
    (created : Awaited CreatedUser) (s : Server) (p : Pending) :
  email <> "" -> code <> "" ->
  otpStore s !! toLowerCase email = Some p ->
  now <= expires p -> 5 <= attempts p ->
  verifyOTP now email code created s
  = (RateLimitedError,
     mkServer (delete (toLowerCase email) (otpStore s)) (timers s)).
Proof.
  intros He Hc Hs Hexp Hat. enter_verifyOTP He Hc Hs. settle_checks.
Qed.

Lemma verifyOTP_mismatch (now : Z) (email code : string)
    (created : Awaited CreatedUser) (s : Server) (p : Pending) :
  email <> "" -> code <> "" ->
  otpStore s !! toLowerCase email = Some p ->
  now <= expires p -> attempts p < 5 -> code <> otp p ->
  verifyOTP now email code created s
  = (MismatchError (5 - (attempts p + 1)),
     mkServer
       (<[toLowerCase email :=
            mkPending (otp p) (expires p) (userData p) (attempts p + 1)]>
          (otpStore s))
       (timers s)).
Proof.
  intros He Hc Hs Hexp Hat Hne. enter_verifyOTP He Hc Hs. settle_checks.
Qed.

Lemma verifyOTP_match (now : Z) (email code : string) (u : CreatedUser)
    (s : Server) (p : Pending) :
  email <> "" -> code <> "" ->
  otpStore s !! toLowerCase email = Some p ->
  now <= expires p -> attempts p < 5 -> otp p = code ->
  verifyOTP now email code (Resolved u) s
  = (verified u,
     mkServer (delete (toLowerCase email) (otpStore s)) (timers s)).
Proof.
  intros He Hc Hs Hexp Hat Heq. enter_verifyOTP He Hc Hs. settle_checks.
Qed.

(** A request that lacks a field is turned away before the store is
    read: nothing is counted and nothing is deleted. *)
Lemma verifyOTP_field_missing (now : Z) (email code : string)
    (created : Awaited CreatedUser) (s : Server) :
  email = "" \/ code = "" ->
  verifyOTP now email code created s
  = (ValidationError "Email and OTP are required", s).
Proof.
  intros [-> | ->]; unfold Ledger.verifyOTP, verifyOTP_begin; simpl;
    [done|by rewrite orb_true_r].
Qed.

Lemma verifyAll_wrong (email : string) (created : Awaited CreatedUser)
    (tries : list (Z * string)) :
  email <> "" ->
  forall (s : Server) (p : Pending),
  otpStore s !! toLowerCase email = Some p ->
  Forall (wrongTry p) tries ->
  attempts p + Z.of_nat (length tries) <= 5 ->
  exists s',
    verifyAll email created tries s = (countdown (attempts p) (length tries), s')
    /\ otpStore s' !! toLowerCase email
       = Some (mkPending (otp p) (expires p) (userData p)
                 (attempts p + Z.of_nat (length tries)))
    /\ timers s' = timers s
    /\ delete (toLowerCase email) (otpStore s')
       = delete (toLowerCase email) (otpStore s).
Proof.
  intros He. induction tries as [|[t c] tries IH]; intros s p Hs Hw Hlen.
  - exists s. simpl. rewrite Z.add_0_r. by destruct p.
  - apply Forall_cons in Hw as [(Hc & Hne & Ht) Hw]. simpl in Hc, Hne, Ht.
    simpl length in *.
    assert (Hat : attempts p < 5) by lia.
    cbn [Ledger.verifyAll].
    rewrite (verifyOTP_mismatch t email c created s p) by done.
    set (p1 := mkPending (otp p) (expires p) (userData p) (attempts p + 1)).
    set (s1 := mkServer (<[toLowerCase email := p1]> (otpStore s)) (timers s)).
    destruct (IH s1 p1) as (s' & Hrun & Hst & Htm & Hdel).
    + apply lookup_insert_eq.
    + done.
    + simpl. lia.
    + exists s'. rewrite Hrun. simpl. split; [done|]. split.
      * rewrite Hst. simpl. do 2 f_equal. lia.
      * split; [done|]. rewrite Hdel. simpl. apply delete_insert_eq.
Qed.

(** ** Confirmation *)

Lemma countdown_seq (a : Z) (k j : nat) :
  countdown (a + Z.of_nat j) k
  = map (fun i => MismatchError (5 - (a + Z.of_nat i))) (seq (S j) k).
Proof.
  revert j. induction k as [|k IH]; intros j; simpl; [done|].
  replace (a + Z.of_nat j + 1) with (a + Z.of_nat (S j)) by lia.
  by rewrite IH.
Qed.

Lemma verifyAll_app (email : string) (created : Awaited CreatedUser)
    (l1 l2 : list (Z * string)) (s : Server) :
  (verifyAll email created (l1 ++ l2) s).2
  = (verifyAll email created l2 (verifyAll email created l1 s).2).2.
Proof.
  revert s. induction l1 as [|[t c] l1 IH]; intros s; [done|].
  cbn [app Ledger.verifyAll].
  destruct (verifyOTP t email c created s) as [r s1].
  specialize (IH s1).
  destruct (verifyAll email created (l1 ++ l2) s1) as [rs s2].
  by destruct (verifyAll email created l1 s1) as [rs' s2'].
Qed.

(** C2.  A pending registration receives submissions in a row, each in
    time and with a code that does not match, that bring its counter to
    5.  The [i]-th of them fails with [MismatchError] reporting
    [5 - (attempts + i)] attempts left, and leaves the counter of the
    record at [attempts + i]; for a record that had seen no attempt these
    are five submissions reporting 4, 3, 2, 1 and 0.  The submission that
    follows, whatever its code (the stored one included), fails with
    [RateLimitedError] and leaves no record. *)
Theorem C2_attempts_count_down_then_rate_limit
    (email : string) (created : Awaited CreatedUser) (s : Server)
    (p : Pending) (tries : list (Z * string)) (t6 : Z) (c6 : string) :
  email <> "" ->
  otpStore s !! toLowerCase email = Some p ->
  Forall (wrongTry p) tries ->
  attempts p + Z.of_nat (length tries) = 5 ->
  c6 <> "" -> t6 <= expires p ->
  (forall k : nat, (k <= length tries)%nat ->
     (verifyAll email created (take k tries) s).1
     = map (fun i => MismatchError (5 - (attempts p + Z.of_nat i))) (seq 1 k)
     /\ otpStore (verifyAll email created (take k tries) s).2
          !! toLowerCase email
        = Some (mkPending (otp p) (expires p) (userData p)
                  (attempts p + Z.of_nat k)))
  /\ (attempts p = 0 ->
      (verifyAll email created tries s).1
      = map MismatchError [4; 3; 2; 1; 0])
  /\ (let s5 := (verifyAll email created tries s).2 in
      verifyOTP t6 email c6 created s5
      = (RateLimitedError,
         mkServer (delete (toLowerCase email) (otpStore s)) (timers s)))
  /\ otpStore (verifyAll email created (tries ++ [(t6, c6)]) s).2
       !! toLowerCase email = None.
Proof.
  intros He Hs Hw Hlen Hc6 Ht6.
  assert (Hrun : forall k : nat, (k <= length tries)%nat ->
    exists s',
      verifyAll email created (take k tries) s
      = (map (fun i => MismatchError (5 - (attempts p + Z.of_nat i)))
           (seq 1 k), s')
      /\ otpStore s' !! toLowerCase email
         = Some (mkPending (otp p) (expires p) (userData p)
                   (attempts p + Z.of_nat k))
      /\ timers s' = timers s
      /\ delete (toLowerCase email) (otpStore s')
         = delete (toLowerCase email) (otpStore s)).
  { intros k Hk.
    destruct (verifyAll_wrong email created (take k tries) He s p Hs)
      as (s' & Hr & Hst & Htm & Hdel).
    - by apply Forall_take.
    - rewrite length_take. lia.
    - exists s'. rewrite length_take, Nat.min_l in * by done.
      rewrite <- (countdown_seq (attempts p) k 0), Z.add_0_r. done. }
  destruct (Hrun (length tries)) as (s5 & Hr5 & Hst5 & Htm5 & Hdel5); [done|].
  rewrite firstn_all in Hr5.
  assert (Hsix : verifyOTP t6 email c6 created
                   (verifyAll email created tries s).2
                 = (RateLimitedError,
                    mkServer (delete (toLowerCase email) (otpStore s))
                      (timers s))).
  { rewrite Hr5. simpl.
    rewrite (verifyOTP_rateLimited t6 email c6 created s5 _ He Hc6 Hst5)
      by (simpl; lia).
    by rewrite Hdel5, Htm5. }
  split; [|split; [|split]].
  - intros k Hk. destruct (Hrun k Hk) as (s' & Hr & Hst & _).
    by rewrite Hr.
  - intros Ha. rewrite Hr5. simpl. rewrite Ha in *.
    by assert (length tries = 5%nat) as -> by lia.
  - exact Hsix.
  - rewrite verifyAll_app. cbn [Ledger.verifyAll]. rewrite Hsix. simpl.
    apply lookup_delete_eq.
Qed.

(** C5.  A confirmation that carries a code and arrives after
    [expires] fails with [ExpiredError] and deletes the record, so that
    a reissue for the same email then fails with [NotFoundError]. *)
Theorem C5_expired_confirmation_deletes
    (email code : string) (created : Awaited CreatedUser) (s : Server)
    (p : Pending) (now now' entropy : Z) :
  email <> "" -> code <> "" ->
  otpStore s !! toLowerCase email = Some p ->
  expires p < now ->
  let s' := (verifyOTP now email code created s).2 in
  (verifyOTP now email code created s).1 = ExpiredError
  /\ otpStore s' !! toLowerCase email = None
  /\ resendOTP now' email entropy s' = (NotFoundError, s').
Proof.
  intros He Hc Hs Hexp.
  rewrite (verifyOTP_expired now email code created s p) by done. simpl.
  split; [done|]. split; [apply lookup_delete_eq|].
  unfold resendOTP. rewrite (falsy_false email) by done. simpl.
  by rewrite lookup_delete_eq.
Qed.

(** C6.  A confirmation that succeeds deletes the record; the same
    call made again, with the code that was right, fails with
    [NotFoundError]. *)
Theorem C6_confirmation_not_idempotent
    (email code : string) (u : CreatedUser) (created' : Awaited CreatedUser)
    (s : Server) (p : Pending) (now now' : Z) :
  email <> "" -> code <> "" ->
  otpStore s !! toLowerCase email = Some p ->
  now <= expires p -> attempts p < 5 -> otp p = code ->
  let s' := (verifyOTP now email code (Resolved u) s).2 in
  (verifyOTP now email code (Resolved u) s).1 = verified u
  /\ otpStore s' !! toLowerCase email = None
  /\ verifyOTP now' email code created' s' = (NotFoundError, s').
Proof.
  intros He Hc Hs Hexp Hat Heq.
  rewrite (verifyOTP_match now email code u s p) by done. simpl.
  split; [done|]. split; [apply lookup_delete_eq|].
  apply verifyOTP_missing; try done. apply lookup_delete_eq.
Qed.

(** ** Reissue *)


(** ** What the replies carry *)

(** C8.  The reply to an issuance and the reply to a reissuance are the
    same whatever code was drawn: no part of a reply depends on the
    draw. *)
Theorem C8_replies_independent_of_code
    (now : Z) (b : RegisterBody) (existing : Awaited bool)
    (hashed : Awaited string) (promo : Awaited bool) (email : string)
    (s : Server) (entropy1 entropy2 : Z) :
  (registerWithOTP now b existing hashed promo entropy1 s).1
  = (registerWithOTP now b existing hashed promo entropy2 s).1
  /\ (resendOTP now email entropy1 s).1 = (resendOTP now email entropy2 s).1.
Proof.
  split.
  - unfold Ledger.registerWithOTP.
    destruct (parseRegister b) as [msg|[e pw]]; [done|].
    destruct existing as [[|]|]; try done. by destruct hashed.
  - unfold resendOTP. destruct (falsy email); [done|].
    by destruct (otpStore s !! toLowerCase email).
Qed.

(** ** Issuing twice *)

Lemma registerWithOTP_stores (now : Z) (b : RegisterBody) (e pw h : string)
    (promo : Awaited bool) (entropy : Z) (s : Server) :
  parseRegister b = inr (e, pw) ->
  registerWithOTP now b (Resolved false) (Resolved h) promo entropy s
  = (registerAck (toLowerCase e),
     mkServer
       (<[toLowerCase e :=
            mkPending (generateOTP entropy) (now + codeLifetime)
              (prepareUserData b e h promo) 0]> (otpStore s))
       (timers s ++ [(now + evictionDelay, toLowerCase e)])).
Proof.
  intros Hb. unfold Ledger.registerWithOTP. rewrite Hb.
  unfold storeOTP. simpl. by rewrite toLowerCase_idemp.
Qed.

(** C10.  Two issuances for one email, the second before the eviction
    of the first is due: the store holds the record of the second under
    the lower-cased email, the timer of the first is still queued, and
    once it is due, ten minutes after the first issuance, it deletes the
    record of the second, which is then less than ten minutes old. *)
Theorem C10_first_timer_evicts_replacement
    (s : Server) (b1 b2 : RegisterBody) (e1 e2 pw1 pw2 h1 h2 : string)
    (promo1 promo2 : Awaited bool) (entropy1 entropy2 t0 t1 : Z) :
  parseRegister b1 = inr (e1, pw1) ->
  parseRegister b2 = inr (e2, pw2) ->
  toLowerCase e1 = toLowerCase e2 ->
  t0 < t1 < t0 + 10 * 60 * 1000 ->
  let s1 := (registerWithOTP t0 b1 (Resolved false) (Resolved h1)
               promo1 entropy1 s).2 in
  let s2 := (registerWithOTP t1 b2 (Resolved false) (Resolved h2)
               promo2 entropy2 s1).2 in
  let key := toLowerCase e1 in
  otpStore s2 !! key
  = Some (mkPending (generateOTP entropy2) (t1 + 5 * 60 * 1000)
            (prepareUserData b2 e2 h2 promo2) 0)
  /\ timers s2
     = (timers s
        ++ [(t0 + 10 * 60 * 1000, key); (t1 + 10 * 60 * 1000, key)])%list
  /\ (forall now, t0 + 10 * 60 * 1000 <= now ->
        otpStore (runTimers now s2) !! key = None)
  /\ (exists now, now < t1 + 10 * 60 * 1000
        /\ otpStore (runTimers now s2) !! key = None).
Proof.
  intros Hb1 Hb2 Hkey Ht. cbv zeta.
  rewrite (registerWithOTP_stores t0 b1 e1 pw1 h1) by done.
  rewrite (registerWithOTP_stores t1 b2 e2 pw2 h2) by done.
  simpl. rewrite <- Hkey.
  assert (Hevict : forall now, t0 + 10 * 60 * 1000 <= now ->
    otpStore (runTimers now
      (mkServer
         (<[toLowerCase e1 :=
              mkPending (generateOTP entropy2) (t1 + codeLifetime)
                (prepareUserData b2 e2 h2 promo2) 0]>
            (<[toLowerCase e1 :=
                 mkPending (generateOTP entropy1) (t0 + codeLifetime)
                   (prepareUserData b1 e1 h1 promo1) 0]> (otpStore s)))
         ((timers s ++ [(t0 + evictionDelay, toLowerCase e1)])
            ++ [(t1 + evictionDelay, toLowerCase e1)])))
      !! toLowerCase e1 = None).
  { intros now Hnow. apply (runTimers_due now (t0 + evictionDelay)).
    - simpl. apply in_or_app. left. apply in_or_app. right. by left.
    - unfold evictionDelay. lia. }
  split; [apply lookup_insert_eq|]. split; [by rewrite <- app_assoc|].
  split; [exact Hevict|].
  exists (t0 + 10 * 60 * 1000). split; [lia|]. apply Hevict. lia.
Qed.

End Handlers.

(** ** The range of the generated code *)

(** C3.  No draw makes [generateOTP] return 999999: the upper bound
    handed to [randomInt] is exclusive, so the codes range over 100000 to
    999998. *)
Theorem C3_generateOTP_never_999999 (entropy : Z) :
  generateOTP entropy <> "999999"
  /\ exists n, generateOTP entropy = toString n /\ 100000 <= n <= 999998.
Proof.
  split; [|apply generateOTP_range].
  destruct (generateOTP_range entropy) as (n & -> & Hn).
  intros E. apply (f_equal parseInt) in E.
  rewrite parseInt_toString in E. vm_compute in E.
  injection E as E. lia.
Qed.

(** ** Instances *)

(** The scenario of C2 on the sample ledger: five wrong codes, then the
    right one. *)
Lemma C2_witness :
  (verifyAll sampleToken "User@Test.com" Rejected fiveWrong sampleServer).1
  = map MismatchError [4; 3; 2; 1; 0]
  /\ verifyOTP sampleToken 6000 "User@Test.com" "123456" Rejected
       (verifyAll sampleToken "User@Test.com" Rejected fiveWrong
          sampleServer).2
     = (RateLimitedError,
        mkServer (delete "user@test.com" (otpStore sampleServer))
          (timers sampleServer)).
Proof.
  assert (Hw : Forall (wrongTry samplePending) fiveWrong).
  { repeat constructor; simpl; (discriminate || lia). }
  pose proof (C2_attempts_count_down_then_rate_limit sampleToken
                "User@Test.com" Rejected sampleServer samplePending
                fiveWrong 6000 "123456"
                ltac:(discriminate) eq_refl Hw eq_refl
                ltac:(discriminate) ltac:(simpl; lia)) as (_ & H5 & H6 & _).
  split; [exact (H5 eq_refl)|exact H6].
Defined.

(** The scenario of C5: the right code, one millisecond late. *)
Lemma C5_witness :
  let s' := (verifyOTP sampleToken 300001 "User@Test.com" "123456" Rejected
               sampleServer).2 in
  (verifyOTP sampleToken 300001 "User@Test.com" "123456" Rejected
     sampleServer).1 = ExpiredError
  /\ otpStore s' !! "user@test.com" = None
  /\ resendOTP 300002 "User@Test.com" 7 s' = (NotFoundError, s').
Proof.
  exact (C5_expired_confirmation_deletes sampleToken "User@Test.com"
           "123456" Rejected sampleServer samplePending 300001 300002 7
           ltac:(discriminate) ltac:(discriminate) eq_refl
           ltac:(simpl; lia)).
Defined.

Lemma C6_witness :
  let s' := (verifyOTP sampleToken 1000 "User@Test.com" "123456"
               (Resolved sampleAccount) sampleServer).2 in
  (verifyOTP sampleToken 1000 "User@Test.com" "123456"
     (Resolved sampleAccount) sampleServer).1 = verified sampleToken sampleAccount
  /\ otpStore s' !! "user@test.com" = None
  /\ verifyOTP sampleToken 2000 "User@Test.com" "123456"
       (Resolved sampleAccount) s' = (NotFoundError, s').
Proof.
  exact (C6_confirmation_not_idempotent sampleToken "User@Test.com"
           "123456" sampleAccount (Resolved sampleAccount) sampleServer
           samplePending 1000 2000
           ltac:(discriminate) ltac:(discriminate) eq_refl
           ltac:(simpl; lia) ltac:(simpl; lia) eq_refl).
Defined.



Lemma C10_witness :
  let s1 := (registerWithOTP anyEmail 0 sampleBody (Resolved false)
               (Resolved "h1") Rejected 5 (mkServer ∅ [])).2 in
  let s2 := (registerWithOTP anyEmail 1000 sampleBody' (Resolved false)
               (Resolved "h2") (Resolved true) 6 s1).2 in
  otpStore s2 !! "user@test.com"
  = Some (mkPending "100006" 301000
            (prepareUserData sampleBody' "USER@test.com" "h2" (Resolved true))
            0)
  /\ timers s2 = [(600000, "user@test.com"); (601000, "user@test.com")]
  /\ otpStore (runTimers 600000 s2) !! "user@test.com" = None.
Proof.
  pose proof (C10_first_timer_evicts_replacement anyEmail (mkServer ∅ [])
                sampleBody sampleBody' "User@Test.com" "USER@test.com"
                "correct horse" "battery staple" "h1" "h2"
                Rejected (Resolved true) 5 6 0 1000
                eq_refl eq_refl eq_refl ltac:(lia)) as (H1 & H2 & H3 & _).
  split; [exact H1|]. split; [exact H2|]. apply H3. lia.
Defined.

(* --------------------------------------------------------------------- *)
(** ** Further properties of the handlers *)
(* --------------------------------------------------------------------- *)

Lemma toLowerCase_falsy (e1 e2 : string) :
  toLowerCase e1 = toLowerCase e2 -> falsy e1 = falsy e2.
Proof. by destruct e1, e2. Qed.

Lemma evict_all_Some (l : list (Z * string)) (m : gmap string Pending)
    (k : string) (p : Pending) :
  fold_left (fun m t => evict t.2 m) l m !! k = Some p -> m !! k = Some p.
Proof.
  revert m. induction l as [|t l IH]; intros m H; simpl in H; [done|].
  apply IH in H. unfold evict in H. by apply lookup_delete_Some in H as [_ H].
Qed.

Lemma isDue_filter_twice (now : Z) (l : list (Z * string)) :
  List.filter (isDue now) (List.filter (fun t => negb (isDue now t)) l) = [].
Proof.
  induction l as [|t l IH]; simpl; [done|].
  destruct (isDue now t) eqn:E; simpl; [done|]. by rewrite E.
Qed.

Lemma filter_negb_twice (now : Z) (l : list (Z * string)) :
  List.filter (fun t => negb (isDue now t))
    (List.filter (fun t => negb (isDue now t)) l)
  = List.filter (fun t => negb (isDue now t)) l.
Proof.
  induction l as [|t l IH]; simpl; [done|].
  destruct (isDue now t) eqn:E; simpl; [done|]. by rewrite E, IH.
Qed.

Section Handlers'.

Variable isEmail : string -> bool.
Variable generateToken : Z -> string.

Local Abbreviation registerWithOTP := (registerWithOTP isEmail).
Local Abbreviation parseRegister := (parseRegister isEmail).
Local Abbreviation verifyOTP := (verifyOTP generateToken).
Local Abbreviation verifyOTP_resume := (verifyOTP_resume generateToken).
Local Abbreviation verified := (verified generateToken).
Local Abbreviation handle := (handle isEmail generateToken).
Local Abbreviation reachable := (reachable isEmail generateToken).

(** X1.  A registration is all or nothing: either it is answered 200,
    and then the body was valid, no account existed, the hash resolved,
    and the state is the old one with exactly the new record stored and
    its eviction queued; or it is answered with another status and the
    store and the timers are what they were. *)
Theorem X1_registration_all_or_nothing
    (now : Z) (b : RegisterBody) (existing : Awaited bool)
    (hashed : Awaited string) (promo : Awaited bool) (entropy : Z)
    (s : Server) :
  let r := (registerWithOTP now b existing hashed promo entropy s).1 in
  let s' := (registerWithOTP now b existing hashed promo entropy s).2 in
  (status r = 200
   /\ exists e pw h,
        parseRegister b = inr (e, pw)
        /\ existing = Resolved false /\ hashed = Resolved h
        /\ r = registerAck (toLowerCase e)
        /\ otpStore s'
           = <[toLowerCase e :=
                 mkPending (generateOTP entropy) (now + 5 * 60 * 1000)
                   (prepareUserData b e h promo) 0]> (otpStore s)
        /\ timers s'
           = (timers s ++ [(now + 10 * 60 * 1000, toLowerCase e)])%list)
  \/ (status r <> 200 /\ s' = s).
Proof.
  cbv zeta. unfold Ledger.registerWithOTP.
  destruct (parseRegister b) as [msg|[e pw]] eqn:Hb; [by right|].
  destruct existing as [[|]|]; try by right.
  destruct hashed as [h|]; [|by right].
  left. split; [done|]. exists e, pw, h. unfold storeOTP. simpl.
  by rewrite toLowerCase_idemp.
Qed.

(** X2.  What tier a registration is prepared for.  A registration that
    goes through stores a payload of the pro tier exactly when a coupon
    was given and its validation resolved to valid; in every other case,
    a validation that threw included, the registration still goes
    through and the payload is of the free tier.  The payload carries the
    hash, the lower-cased email, the provider [local] and no used
    pages. *)
Theorem X2_promo_decides_tier_and_never_aborts
    (now : Z) (b : RegisterBody) (e pw h : string) (promo : Awaited bool)
    (entropy : Z) (s : Server) :
  parseRegister b = inr (e, pw) ->
  let r := (registerWithOTP now b (Resolved false) (Resolved h) promo
              entropy s).1 in
  let s' := (registerWithOTP now b (Resolved false) (Resolved h) promo
               entropy s).2 in
  status r = 200
  /\ exists p,
       otpStore s' !! toLowerCase e = Some p
       /\ (couponGiven b = true /\ promo = Resolved true ->
           proTier (userData p))
       /\ (~ (couponGiven b = true /\ promo = Resolved true) ->
           freeTier (userData p))
       /\ password (userData p) = h
       /\ email (userData p) = toLowerCase e
       /\ provider (userData p) = "local"
       /\ usedPages (userData p) = 0.
Proof.
  intros Hb. cbv zeta. rewrite (registerWithOTP_stores isEmail now b e pw h)
    by done.
  simpl. split; [done|]. eexists. split; [apply lookup_insert_eq|]. simpl.
  unfold proTier, freeTier, prepareUserData, upgraded. simpl.
  split; [by intros [-> ->]|]. split; [|done].
  intros Hn. destruct (couponGiven b); [|done].
  destruct promo as [[|]|]; try done. by destruct Hn.
Qed.

(** X3.  The ledger does not see the case of an email: two requests
    whose emails differ in case only get the same reply and leave the
    same state, for a confirmation and for a reissue. *)
Theorem X3_email_case_is_ignored
    (now : Z) (e1 e2 code : string) (created : Awaited CreatedUser)
    (entropy : Z) (s : Server) :
  toLowerCase e1 = toLowerCase e2 ->
  verifyOTP now e1 code created s = verifyOTP now e2 code created s
  /\ resendOTP now e1 entropy s = resendOTP now e2 entropy s.
Proof.
  intros He. pose proof (toLowerCase_falsy e1 e2 He) as Hf.
  unfold Ledger.verifyOTP, verifyOTP_begin, Ledger.verifyOTP_resume, resendOTP.
  by rewrite He, Hf.
Qed.


(** ** Account creation that fails or overlaps *)

(** X5.  When [storage.createUser] rejects, the confirmation is answered
    500 and nothing is consumed: the record, its counter and the timers
    are what they were, and the same code, submitted again in time,
    creates the account. *)
Theorem X5_failed_creation_keeps_the_code
    (email code : string) (u : CreatedUser) (s : Server) (p : Pending)
    (now now' : Z) :
  email <> "" -> code <> "" ->
  otpStore s !! toLowerCase email = Some p ->
  now <= expires p -> now' <= expires p -> attempts p < 5 ->
  otp p = code ->
  verifyOTP now email code Rejected s
  = (message 500 "Verification failed", s)
  /\ verifyOTP now' email code (Resolved u) s
     = (verified u,
        mkServer (delete (toLowerCase email) (otpStore s)) (timers s)).
Proof.
  intros He Hc Hs Hnow Hnow' Hat Heq. split.
  - unfold Ledger.verifyOTP, verifyOTP_begin.
    rewrite (falsy_false _ He), (falsy_false _ Hc), Hs. simpl.
    destruct (Z.ltb_spec (expires p) now); [lia|].
    destruct (Z.leb_spec 5 (attempts p)); [lia|].
    by destruct (String.eqb_spec (otp p) code).
  - by apply (verifyOTP_match generateToken now' email code u s p).
Qed.

(** X6.  The first segment of a confirmation whose code matches leaves
    the state as it found it: the record is deleted only when account
    creation has settled.  A second confirmation with the same code that
    starts before that passes the same checks, and both are answered 201
    once their account creations resolve. *)
Theorem X6_matching_code_is_not_reserved
    (email code : string) (u1 u2 : CreatedUser) (s : Server) (p : Pending)
    (now now' : Z) :
  email <> "" -> code <> "" ->
  otpStore s !! toLowerCase email = Some p ->
  now <= expires p -> now' <= expires p -> attempts p < 5 ->
  otp p = code ->
  verifyOTP_begin now email code s = VAwaitCreate (userData p) s
  /\ verifyOTP_begin now' email code s = VAwaitCreate (userData p) s
  /\ (let s1 := (verifyOTP_resume email (Resolved u1) s).2 in
      (verifyOTP_resume email (Resolved u1) s).1 = verified u1
      /\ verifyOTP_resume email (Resolved u2) s1 = (verified u2, s1)).
Proof.
  intros He Hc Hs Hnow Hnow' Hat Heq.
  assert (Hb : forall t, t <= expires p ->
            verifyOTP_begin t email code s = VAwaitCreate (userData p) s).
  { intros t Ht. unfold verifyOTP_begin.
    rewrite (falsy_false _ He), (falsy_false _ Hc), Hs. simpl.
    destruct (Z.ltb_spec (expires p) t); [lia|].
    destruct (Z.leb_spec 5 (attempts p)); [lia|].
    by destruct (String.eqb_spec (otp p) code). }
  split; [by apply Hb|]. split; [by apply Hb|]. simpl.
  split; [done|]. f_equal. f_equal. apply delete_id, lookup_delete_eq.
Qed.

(** X7.  The reply to a confirmation that succeeded carries the user
    without its [password] property, whatever the account record holds;
    its [token] is the one set in the [auth_token] cookie. *)
Theorem X7_reply_never_carries_the_password (u : CreatedUser) :
  Forall (fun kv => kv.1 <> "password")
    (objectAt "user" (bodyFields (verified u)))
  /\ objectAt "user" (bodyFields (verified u)) <> []
  /\ exists token,
       In ("token", JStr token) (bodyFields (verified u))
       /\ cookies (verified u) = [("auth_token", token)].
Proof.
  split; [|split].
  - simpl. constructor; [done|].
    induction (cu_props u) as [|[k v] l IH]; simpl; [constructor|].
    destruct (String.eqb_spec k "password"); simpl; [done|].
    by constructor.
  - done.
  - eexists. split; [|reflexivity]. simpl. tauto.
Qed.

(** ** Requests that lack a field *)

(** X8.  Requests that lack a field are turned away before the store
    is read.  Any number of confirmations in a row without an email, or
    each without a code, are all answered 400 and leave the ledger as it
    was: no attempt is counted and no record is deleted, not even one that
    has expired or used up its attempts.  The same holds of a reissue
    without an email. *)
Theorem X8_missing_fields_change_nothing
    (email : string) (created : Awaited CreatedUser)
    (tries : list (Z * string)) (now entropy : Z) (s : Server) :
  email = "" \/ Forall (fun try => try.2 = "") tries ->
  verifyAll generateToken email created tries s
  = (map (fun _ => ValidationError "Email and OTP are required") tries, s)
  /\ resendOTP now "" entropy s = (ValidationError "Email is required", s).
Proof.
  intros H. split; [|done].
  assert (Hone : forall t c, email = "" \/ c = "" ->
            verifyOTP t email c created s
            = (ValidationError "Email and OTP are required", s)).
  { intros t c [-> | ->]; unfold Ledger.verifyOTP, verifyOTP_begin; simpl;
      [done|by rewrite orb_true_r]. }
  induction tries as [|[t c] tries IH]; [done|].
  cbn [Ledger.verifyAll map]. rewrite Hone.
  - rewrite IH; [done|]. destruct H as [H|H]; [by left|].
    right. by apply Forall_cons in H as [_ H].
  - destruct H as [H|H]; [by left|]. right.
    by apply Forall_cons in H as [H _].
Qed.

(** ** Timers *)

(** X9.  A turn of the event loop only deletes: a record found after it
    was there before, unchanged.  No timer that is due stays queued, the
    timers that stay were queued before, and a second turn at the same
    time changes nothing. *)
Theorem X9_timers_only_delete_and_fire_once (now : Z) (s : Server) :
  (forall k p, otpStore (runTimers now s) !! k = Some p ->
     otpStore s !! k = Some p)
  /\ Forall (fun t => now < t.1) (timers (runTimers now s))
  /\ (forall t, In t (timers (runTimers now s)) -> In t (timers s))
  /\ runTimers now (runTimers now s) = runTimers now s.
Proof.
  split; [|split; [|split]].
  - intros k p. apply evict_all_Some.
  - unfold runTimers. simpl. apply Forall_forall.
    intros t [_ Ht]%list_elem_of_In%filter_In. unfold isDue in Ht.
    destruct (Z.leb_spec t.1 now); [done|lia].
  - unfold runTimers. simpl. by intros t [Ht _]%filter_In.
  - unfold runTimers. simpl.
    by rewrite isDue_filter_twice, filter_negb_twice.
Qed.

(** X10.  The two clocks of a record.  A registration at [t0] for an
    email no queued timer names: until five minutes have passed the
    record is found as stored; from then until ten minutes have passed
    the record is still in the store, and a confirmation, right code or
    not, is answered [ExpiredError]; once ten minutes have passed the
    event loop has deleted it and a confirmation is answered
    [NotFoundError]. *)
Theorem X10_expired_then_evicted
    (s : Server) (b : RegisterBody) (e pw h code : string)
    (promo : Awaited bool) (created : Awaited CreatedUser)
    (entropy t0 now : Z) :
  parseRegister b = inr (e, pw) ->
  e <> "" -> code <> "" ->
  (forall due, ~ In (due, toLowerCase e) (timers s)) ->
  let s1 := (registerWithOTP t0 b (Resolved false) (Resolved h) promo
               entropy s).2 in
  let s2 := runTimers now s1 in
  (now < t0 + 10 * 60 * 1000 ->
   otpStore s2 !! toLowerCase e
   = Some (mkPending (generateOTP entropy) (t0 + 5 * 60 * 1000)
             (prepareUserData b e h promo) 0))
  /\ (t0 + 5 * 60 * 1000 < now < t0 + 10 * 60 * 1000 ->
      (verifyOTP now e code created s2).1 = ExpiredError)
  /\ (t0 + 10 * 60 * 1000 <= now ->
      verifyOTP now e code created s2 = (NotFoundError, s2)).
Proof.
  intros Hb He Hc Hfree. cbv zeta.
  rewrite (registerWithOTP_stores isEmail t0 b e pw h) by done. simpl.
  set (p := mkPending _ _ _ _). set (s1 := mkServer _ _).
  assert (Hkeep : now < t0 + 10 * 60 * 1000 ->
            otpStore (runTimers now s1) !! toLowerCase e = Some p).
  { intros Hnow. rewrite runTimers_not_due.
    - apply lookup_insert_eq.
    - intros due [Hin|[[= <-]|[]]]%in_app_or.
      + by destruct (Hfree due).
      + unfold evictionDelay. lia. }
  split; [exact Hkeep|]. split.
  - intros [Hlo Hhi].
    by rewrite (verifyOTP_expired generateToken now e code created _ p He Hc
                  (Hkeep Hhi)).
  - intros Hnow. apply verifyOTP_missing; try done.
    apply (runTimers_due now (t0 + evictionDelay)).
    + simpl. apply in_or_app. right. by left.
    + unfold evictionDelay. lia.
Qed.

(** ** What holds in every state the server can reach *)

(** Where a record found after a request comes from: it was there
    before, or a registration has just stored it, or it is the record
    that was there with one more attempt, or with a new code. *)
Lemma handle_record (now : Z) (r : Request) (s : Server) (k : string)
    (p : Pending) :
  otpStore (handle now r s) !! k = Some p ->
  otpStore s !! k = Some p
  \/ (exists b e pw h promo entropy,
        parseRegister b = inr (e, pw) /\ k = toLowerCase e
        /\ p = mkPending (generateOTP entropy) (now + codeLifetime)
                 (prepareUserData b e h promo) 0)
  \/ (exists p0,
        otpStore s !! k = Some p0 /\ attempts p0 < 5
        /\ p = mkPending (otp p0) (expires p0) (userData p0)
                 (attempts p0 + 1))
  \/ (exists p0 entropy,
        otpStore s !! k = Some p0
        /\ p = mkPending (generateOTP entropy) (now + codeLifetime)
                 (userData p0) 0).
Proof.
  destruct r as [b existing hashed promo entropy|email code|email created
                |email entropy|]; simpl.
  - unfold Ledger.registerWithOTP.
    destruct (parseRegister b) as [msg|[e pw]] eqn:Hb; [by left|].
    destruct existing as [[|]|]; try by left.
    destruct hashed as [h|]; [|by left].
    unfold storeOTP. simpl. rewrite toLowerCase_idemp.
    destruct (decide (k = toLowerCase e)) as [->|Hne].
    + rewrite lookup_insert_eq. intros [= <-]. right. left.
      by exists b, e, pw, h, promo, entropy.
    + rewrite lookup_insert_ne by done. by left.
  - unfold verifyOTP_begin.
    destruct (falsy email || falsy code)%bool; [by left|].
    destruct (otpStore s !! toLowerCase email) as [p0|] eqn:Hs; [|by left].
    destruct (expires p0 <? now); simpl;
      [intros [_ H]%lookup_delete_Some; by left|].
    destruct (Z.leb_spec 5 (attempts p0)); simpl;
      [intros [_ H']%lookup_delete_Some; by left|].
    destruct (negb (String.eqb (otp p0) code)); simpl; [|by left].
    destruct (decide (k = toLowerCase email)) as [->|Hne].
    + rewrite lookup_insert_eq. intros [= <-]. right. right. left.
      by exists p0.
    + rewrite lookup_insert_ne by done. by left.
  - destruct created; simpl; [|by left].
    intros [_ H]%lookup_delete_Some. by left.
  - unfold resendOTP. destruct (falsy email); [by left|].
    destruct (otpStore s !! toLowerCase email) as [p0|] eqn:Hs; [|by left].
    simpl. destruct (decide (k = toLowerCase email)) as [->|Hne].
    + rewrite lookup_insert_eq. intros [= <-]. right. right. right.
      by exists p0, entropy.
    + rewrite lookup_insert_ne by done. by left.
  - intros H. left. by apply evict_all_Some in H.
Qed.

(** A property of records that a registration establishes, and that one
    more attempt and a new code keep, holds of every record of every
    reachable state. *)
Lemma records_invariant (P : string -> Pending -> Prop) :
  (forall now b e pw h promo entropy,
     parseRegister b = inr (e, pw) ->
     P (toLowerCase e)
       (mkPending (generateOTP entropy) (now + codeLifetime)
          (prepareUserData b e h promo) 0)) ->
  (forall k p, P k p -> attempts p < 5 ->
     P k (mkPending (otp p) (expires p) (userData p) (attempts p + 1))) ->
  (forall k p now entropy, P k p ->
     P k (mkPending (generateOTP entropy) (now + codeLifetime)
            (userData p) 0)) ->
  forall s, reachable s ->
  forall k p, otpStore s !! k = Some p -> P k p.
Proof.
  intros Hreg Hinc Hnew s Hs.
  induction Hs as [|s now r Hs IH]; intros k p Hk; [done|].
  apply handle_record in Hk
    as [Hk|[(b & e & pw & h & promo & entropy & Hb & -> & ->)
           |[(p0 & Hk & Hat & ->)|(p0 & entropy & Hk & ->)]]]; eauto.
Qed.

(** X11.  In every state the server can reach, the counter of every
    record is between 0 and 5: no sequence of requests drives it past the
    cap. *)
Theorem X11_attempts_stay_within_the_cap
    (s : Server) (k : string) (p : Pending) :
  reachable s -> otpStore s !! k = Some p -> 0 <= attempts p <= 5.
Proof.
  intros Hs Hk. revert s Hs k p Hk.
  apply (records_invariant (fun _ p => 0 <= attempts p <= 5)); simpl; lia.
Qed.

(** X12.  In every state the server can reach, a record is kept under
    the lower-cased email of its own payload: the key is already in lower
    case, the account that a confirmation creates is the one registered
    for that email, with the provider [local], no used pages, and the
    fields of either the pro or the free tier. *)
Theorem X12_records_are_keyed_by_their_own_email
    (s : Server) (k : string) (p : Pending) :
  reachable s -> otpStore s !! k = Some p ->
  toLowerCase k = k
  /\ email (userData p) = k
  /\ provider (userData p) = "local"
  /\ usedPages (userData p) = 0
  /\ (proTier (userData p) \/ freeTier (userData p)).
Proof.
  intros Hs Hk. revert s Hs k p Hk.
  apply (records_invariant
           (fun k p => toLowerCase k = k /\ email (userData p) = k
                       /\ provider (userData p) = "local"
                       /\ usedPages (userData p) = 0
                       /\ (proTier (userData p) \/ freeTier (userData p))));
    simpl; try done.
  intros _ b e _ h promo _ _. split; [apply toLowerCase_idemp|].
  do 3 (split; [done|]). unfold proTier, freeTier. simpl.
  destruct (upgraded b promo); [by left|by right].
Qed.

(** X13.  In every state the server can reach, the code of every record
    is the decimal print of an integer between 100000 and 999998: it is
    never empty and reads back as that integer. *)
Theorem X13_stored_codes_are_numeric
    (s : Server) (k : string) (p : Pending) :
  reachable s -> otpStore s !! k = Some p ->
  exists n, otp p = toString n /\ 100000 <= n <= 999998
            /\ parseInt (otp p) = Some n /\ otp p <> "".
Proof.
  intros Hs Hk. revert s Hs k p Hk.
  assert (Hgen : forall entropy, exists n,
            generateOTP entropy = toString n /\ 100000 <= n <= 999998
            /\ parseInt (generateOTP entropy) = Some n
            /\ generateOTP entropy <> "").
  { intros entropy. destruct (generateOTP_range entropy) as (n & E & Hn).
    exists n. rewrite E. split; [done|]. split; [done|].
    split; [apply parseInt_toString|apply toString_not_empty]. }
  apply (records_invariant
           (fun _ p => exists n, otp p = toString n /\ 100000 <= n <= 999998
                                 /\ parseInt (otp p) = Some n /\ otp p <> ""));
    simpl; auto.
Qed.

(** Requests other than a turn of the event loop keep every timer. *)
Lemma handle_keeps_timers (now : Z) (r : Request) (s : Server)
    (t : Z * string) :
  r <> Tick -> In t (timers s) -> In t (timers (handle now r s)).
Proof.
  intros Hr Hin.
  destruct r as [b existing hashed promo entropy|email code|email created
                |email entropy|]; simpl; [| | | |done].
  - unfold Ledger.registerWithOTP.
    destruct (parseRegister b) as [msg|[e pw]]; [done|].
    destruct existing as [[|]|]; try done.
    destruct hashed as [h|]; [|done]. simpl. apply in_or_app. by left.
  - unfold verifyOTP_begin.
    destruct (falsy email || falsy code)%bool; [done|].
    destruct (otpStore s !! toLowerCase email) as [p0|]; [|done].
    destruct (expires p0 <? now); [done|].
    destruct (5 <=? attempts p0); [done|].
    by destruct (negb (String.eqb (otp p0) code)).
  - by destruct created.
  - unfold resendOTP. destruct (falsy email); [done|].
    by destruct (otpStore s !! toLowerCase email).
Qed.

(** A record found after a request was there before, in some form, or
    comes with the timer the registration has just queued. *)
Lemma handle_record_or_timer (now : Z) (r : Request) (s : Server)
    (k : string) (p : Pending) :
  otpStore (handle now r s) !! k = Some p ->
  is_Some (otpStore s !! k)
  \/ In (now + evictionDelay, k) (timers (handle now r s)).
Proof.
  intros Hk.
  destruct r as [b existing hashed promo entropy|email code|email created
                |email entropy|];
    try (left;
         destruct (handle_record now _ s k p Hk)
           as [H|[(b' & e' & pw' & h' & promo' & entropy' & _)
                 |[(p0 & H & _)|(p0 & entropy' & H & _)]]]; by eauto).
  - simpl in *. unfold Ledger.registerWithOTP in *.
    destruct (parseRegister b) as [msg|[e pw]]; [by left; eauto|].
    destruct existing as [[|]|]; try by left; eauto.
    destruct hashed as [h|]; [|by left; eauto].
    unfold storeOTP in *. simpl in *. rewrite toLowerCase_idemp in *.
    destruct (decide (k = toLowerCase e)) as [->|Hne].
    + right. apply in_or_app. right. by left.
    + rewrite lookup_insert_ne in Hk by done. left. eauto.
  - left. simpl in Hk. unfold verifyOTP_begin in Hk.
    destruct (falsy email || falsy code)%bool; [eauto|].
    destruct (otpStore s !! toLowerCase email) as [p0|] eqn:E; [|eauto].
    destruct (expires p0 <? now); simpl in Hk;
      [apply lookup_delete_Some in Hk as [_ Hk]; eauto|].
    destruct (5 <=? attempts p0); simpl in Hk;
      [apply lookup_delete_Some in Hk as [_ Hk]; eauto|].
    destruct (negb (String.eqb (otp p0) code)); simpl in Hk; [|eauto].
    destruct (decide (k = toLowerCase email)) as [->|Hne]; [eauto|].
    rewrite lookup_insert_ne in Hk by done. eauto.
  - left. simpl in Hk. destruct created; simpl in Hk; [|eauto].
    apply lookup_delete_Some in Hk as [_ Hk]. eauto.
  - left. simpl in Hk. unfold resendOTP in Hk.
    destruct (falsy email); [eauto|].
    destruct (otpStore s !! toLowerCase email) as [p0|] eqn:E; [|eauto].
    simpl in Hk. destruct (decide (k = toLowerCase email)) as [->|Hne];
      [eauto|].
    rewrite lookup_insert_ne in Hk by done. eauto.
  - left. simpl in Hk. apply evict_all_Some in Hk. eauto.
Qed.

(** X14.  In every state the server can reach, every record has an
    eviction queued under its key, and the turn of the event loop at
    which that timer is due deletes the record: no record stays without
    a scheduled end. *)
Theorem X14_every_record_has_an_eviction_queued
    (s : Server) (k : string) (p : Pending) :
  reachable s -> otpStore s !! k = Some p ->
  exists due, In (due, k) (timers s)
              /\ forall now, due <= now ->
                   otpStore (runTimers now s) !! k = None.
Proof.
  intros Hs Hk.
  cut (exists due, In (due, k) (timers s)).
  { intros [due Hin]. exists due. split; [done|].
    intros now Hnow. by apply (runTimers_due now due). }
  revert k p Hk. induction Hs as [|s now r Hs IH]; intros k p Hk; [done|].
  destruct (handle_record_or_timer now r s k p Hk) as [[p0 H0]|Hin];
    [|by eauto].
  destruct (IH k p0 H0) as [due Hin]. exists due.
  assert (r = Tick \/ r <> Tick) as [->|Hr]
    by (destruct r; (by left) || (by right)).
  2: by apply handle_keeps_timers.
  simpl. apply filter_In. split; [done|].
  destruct (isDue now (due, k)) eqn:Hd; [|done]. exfalso.
  assert (Hnone : otpStore (runTimers now s) !! k = None).
  { apply (runTimers_due now due); [done|].
    unfold isDue in Hd. simpl in Hd. lia. }
  simpl in Hk. unfold runTimers in Hnone. simpl in Hnone. congruence.
Qed.

End Handlers'.

(** ** The length of a code *)

Lemma length_string_of_uint (d : uint) :
  String.length (NilEmpty.string_of_uint d) = nb_digits d.
Proof. induction d; simpl; auto. Qed.

(** Reading [d] after the digits already read as [acc]. *)
Lemma of_uint_acc_bounds (d : uint) (acc : positive) :
  Z.pos acc * 10 ^ Z.of_nat (nb_digits d)
  <= Z.pos (Pos.of_uint_acc d acc)
  < (Z.pos acc + 1) * 10 ^ Z.of_nat (nb_digits d).
Proof.
  revert acc. induction d; intros acc; cbn [Pos.of_uint_acc nb_digits];
    try (rewrite Nat2Z.inj_succ, Z.pow_succ_r by lia;
         match goal with |- context [Pos.of_uint_acc d ?a] =>
           specialize (IHd a) end;
         assert (0 < 10 ^ Z.of_nat (nb_digits d))
           by (apply Z.pow_pos_nonneg; lia);
         nia).
  simpl. lia.
Qed.

(** The print of a positive number has no leading zero. *)
Lemma to_uint_head (p : positive) : nzhead (Pos.to_uint p) = Pos.to_uint p.
Proof.
  pose proof (DecimalPos.Unsigned.to_of (Pos.to_uint p)) as H.
  rewrite DecimalPos.Unsigned.of_to in H. simpl in H.
  pose proof (DecimalPos.Unsigned.to_uint_nonzero p) as Hz.
  unfold unorm in H. destruct (nzhead (Pos.to_uint p)) eqn:E; congruence.
Qed.

Lemma to_uint_bounds (p : positive) :
  10 ^ (Z.of_nat (nb_digits (Pos.to_uint p)) - 1) <= Z.pos p
  < 10 ^ Z.of_nat (nb_digits (Pos.to_uint p)).
Proof.
  pose proof (to_uint_head p) as Hh.
  pose proof (DecimalPos.Unsigned.of_to p) as Hv.
  destruct (Pos.to_uint p) as [|d|d|d|d|d|d|d|d|d|d] eqn:E;
    try discriminate Hv;
    try (simpl in Hh; exfalso;
         assert (Hl := nb_digits_nzhead d); rewrite Hh in Hl; simpl in Hl;
         lia);
    cbn [nb_digits]; rewrite Nat2Z.inj_succ;
    replace (Z.succ (Z.of_nat (nb_digits d)) - 1)
      with (Z.of_nat (nb_digits d)) by lia;
    rewrite Z.pow_succ_r by lia;
    cbn [Pos.of_uint] in Hv; injection Hv as Hv;
    match type of Hv with Pos.of_uint_acc d ?a = _ =>
      pose proof (of_uint_acc_bounds d a) as Hb end;
    rewrite Hv in Hb;
    assert (0 < 10 ^ Z.of_nat (nb_digits d))
      by (apply Z.pow_pos_nonneg; lia);
    nia.
Qed.

(** A positive integer printed with [L] digits lies between [10^(L-1)]
    and [10^L]. *)
Lemma toString_length_bounds (n : Z) :
  0 < n ->
  10 ^ (Z.of_nat (String.length (toString n)) - 1) <= n
  < 10 ^ Z.of_nat (String.length (toString n)).
Proof.
  destruct n as [|p|p]; try lia. intros _. unfold toString. simpl.
  rewrite string_of_uint_pos, length_string_of_uint. apply to_uint_bounds.
Qed.

Lemma toString_allDigits (n : Z) : 0 <= n -> allDigits (toString n) = true.
Proof.
  destruct n as [|p|p]; try lia; intros _; [done|].
  unfold toString. simpl. rewrite string_of_uint_pos.
  apply allDigits_string_of_uint.
Qed.

(** X15.  Whatever the draw, the generated code is a string of exactly
    six characters, all of them decimal digits, and the first is not
    [0]. *)
Theorem X15_generated_code_has_six_digits (entropy : Z) :
  String.length (generateOTP entropy) = 6%nat
  /\ allDigits (generateOTP entropy) = true
  /\ exists c rest, generateOTP entropy = String c rest /\ c <> "0"%char.
Proof.
  destruct (generateOTP_range entropy) as (n & E & Hn). rewrite E.
  pose proof (toString_length_bounds n ltac:(lia)) as Hb.
  set (L := String.length (toString n)) in *.
  assert (HL : L = 6%nat).
  { destruct (Nat.lt_trichotomy L 6) as [Hlt|[Heq|Hgt]]; [|done|]; exfalso.
    - assert (10 ^ Z.of_nat L <= 10 ^ 5)
        by (apply Z.pow_le_mono_r; lia). lia.
    - assert (10 ^ 6 <= 10 ^ (Z.of_nat L - 1))
        by (apply Z.pow_le_mono_r; lia). lia. }
  split; [done|]. split; [apply toString_allDigits; lia|].
  destruct n as [|p|p]; try lia. unfold toString. simpl.
  rewrite string_of_uint_pos. pose proof (to_uint_head p) as Hh.
  pose proof (to_uint_not_Nil p) as Hnil.
  destruct (Pos.to_uint p) as [|d|d|d|d|d|d|d|d|d|d]; try done;
    try (simpl; eexists _, _; split; [reflexivity|discriminate]).
  exfalso. simpl in Hh. assert (Hl := nb_digits_nzhead d).
  rewrite Hh in Hl. simpl in Hl. lia.
Qed.

(** ** No account without the code *)

Section Soundness.

Variable generateToken : Z -> string.


End Soundness.


(** ** Instances of the further properties *)

Lemma X2_witness :
  exists p,
    otpStore (registerWithOTP anyEmail 0 sampleBody' (Resolved false)
                (Resolved "h2") (Resolved true) 6 (mkServer ∅ [])).2
      !! "user@test.com" = Some p
    /\ tier (userData p) = "pro" /\ password (userData p) = "h2".
Proof.
  destruct (X2_promo_decides_tier_and_never_aborts anyEmail 0 sampleBody'
              "USER@test.com" "battery staple" "h2" (Resolved true) 6
              (mkServer ∅ []) eq_refl)
    as (_ & p & Hp & Hpro & _ & Hpw & _).
  exists p. split; [exact Hp|]. split; [|exact Hpw].
  by destruct (Hpro (conj eq_refl eq_refl)).
Defined.

Lemma X3_witness :
  verifyOTP sampleToken 1000 "User@Test.com" "123456" Rejected sampleServer
  = verifyOTP sampleToken 1000 "USER@TEST.COM" "123456" Rejected sampleServer.
Proof.
  exact (proj1 (X3_email_case_is_ignored sampleToken 1000 "User@Test.com"
                  "USER@TEST.COM" "123456" Rejected 0 sampleServer eq_refl)).
Defined.


Lemma X5_witness :
  verifyOTP sampleToken 1000 "User@Test.com" "123456" Rejected sampleServer
  = (message 500 "Verification failed", sampleServer)
  /\ (verifyOTP sampleToken 2000 "User@Test.com" "123456"
        (Resolved sampleAccount) sampleServer).1
     = verified sampleToken sampleAccount.
Proof.
  destruct (X5_failed_creation_keeps_the_code sampleToken "User@Test.com"
              "123456" sampleAccount sampleServer samplePending 1000 2000
              ltac:(discriminate) ltac:(discriminate) eq_refl
              ltac:(simpl; lia) ltac:(simpl; lia) ltac:(simpl; lia) eq_refl)
    as [H1 H2].
  split; [exact H1|]. by rewrite H2.
Defined.

Lemma X6_witness :
  verifyOTP_begin 1000 "User@Test.com" "123456" sampleServer
  = VAwaitCreate sampleData sampleServer
  /\ verifyOTP_begin 1001 "User@Test.com" "123456" sampleServer
     = VAwaitCreate sampleData sampleServer.
Proof.
  destruct (X6_matching_code_is_not_reserved sampleToken "User@Test.com"
              "123456" sampleAccount sampleAccount sampleServer
              samplePending 1000 1001
              ltac:(discriminate) ltac:(discriminate) eq_refl
              ltac:(simpl; lia) ltac:(simpl; lia) ltac:(simpl; lia) eq_refl)
    as (H1 & H2 & _).
  by split.
Defined.

Lemma X8_witness :
  verifyAll sampleToken "User@Test.com" Rejected
    [(1000, ""); (400000, ""); (700000, "")] sampleServer
  = (map (fun _ => ValidationError "Email and OTP are required")
       [(1000, ""); (400000, ""); (700000, "")], sampleServer).
Proof.
  refine (proj1 (X8_missing_fields_change_nothing sampleToken
                   "User@Test.com" Rejected
                   [(1000, ""); (400000, ""); (700000, "")] 0 0
                   sampleServer (or_intror _))).
  by repeat constructor.
Defined.

Lemma X10_witness :
  let s2 := runTimers 400000
              (registerWithOTP anyEmail 0 sampleBody (Resolved false)
                 (Resolved "h1") Rejected 5 (mkServer ∅ [])).2 in
  (verifyOTP sampleToken 400000 "User@Test.com" "100005" Rejected s2).1
  = ExpiredError.
Proof.
  exact (proj1 (proj2
    (X10_expired_then_evicted anyEmail sampleToken (mkServer ∅ [])
       sampleBody "User@Test.com" "correct horse" "h1" "100005" Rejected
       Rejected 5 0 400000 eq_refl ltac:(discriminate) ltac:(discriminate)
       (fun due H => H))) ltac:(lia)).
Defined.

Lemma sampleLedgerRun_reachable : reachable anyEmail sampleToken sampleRun.
Proof. do 2 constructor. constructor. Qed.

Lemma X11_witness : 0 <= attempts sampleRunRecord <= 5.
Proof.
  exact (X11_attempts_stay_within_the_cap anyEmail sampleToken sampleRun
           "user@test.com" sampleRunRecord sampleLedgerRun_reachable eq_refl).
Defined.

Lemma X12_witness :
  email (userData sampleRunRecord) = "user@test.com"
  /\ provider (userData sampleRunRecord) = "local".
Proof.
  destruct (X12_records_are_keyed_by_their_own_email anyEmail sampleToken
              sampleRun "user@test.com" sampleRunRecord sampleLedgerRun_reachable
              eq_refl) as (_ & H1 & H2 & _).
  by split.
Defined.

Lemma X13_witness :
  exists n, otp sampleRunRecord = toString n /\ 100000 <= n <= 999998.
Proof.
  destruct (X13_stored_codes_are_numeric anyEmail sampleToken sampleRun
              "user@test.com" sampleRunRecord sampleLedgerRun_reachable eq_refl)
    as (n & H1 & H2 & _).
  by exists n.
Defined.

Lemma X14_witness :
  exists due, In (due, "user@test.com") (timers sampleRun)
              /\ otpStore (runTimers due sampleRun) !! "user@test.com" = None.
Proof.
  destruct (X14_every_record_has_an_eviction_queued anyEmail sampleToken
              sampleRun "user@test.com" sampleRunRecord sampleLedgerRun_reachable
              eq_refl) as (due & H1 & H2).
  exists due. split; [exact H1|]. apply H2. lia.
Defined.

End LedgerFacts.

(* ===================================================================== *)
(** * Properties of the session reconciler *)
(* ===================================================================== *)

Module ReconcilerFacts.
Import JS JSFacts Reconciler.

(** ** notifyListeners *)

(** Either nothing happens, or every listener is called with the
    current state and user, which become the last notified ones. *)
Lemma notifyListeners_cases (w : World) :
  notifyListeners w = w /\ lastNotifiedState (mgr w)
                           = Some (authState (mgr w), user (mgr w))
  \/ notifyListeners w
     = emit (map (fun l => Notify l (authState (mgr w)) (user (mgr w)))
               (listeners (mgr w)))
         (withMgr (setLastNotifiedState
                     (Some (authState (mgr w), user (mgr w)))) w)
     /\ lastNotifiedState (mgr w) <> Some (authState (mgr w), user (mgr w)).
Proof.
  unfold notifyListeners, sameJSON.
  destruct (lastNotifiedState (mgr w)) as [[st u]|]; [|by right].
  destruct (bool_decide_reflect (st = authState (mgr w))) as [->|Hst]; simpl.
  - destruct (bool_decide_reflect (u = user (mgr w))) as [->|Hu].
    + by left.
    + right. split; [done|]. congruence.
  - right. split; [done|]. congruence.
Qed.

Lemma notifyListeners_fields (w : World) :
  let w' := notifyListeners w in
  authState (mgr w') = authState (mgr w)
  /\ user (mgr w') = user (mgr w)
  /\ isLoggedOut (mgr w') = isLoggedOut (mgr w)
  /\ unsubscribeAuth (mgr w') = unsubscribeAuth (mgr w)
  /\ listeners (mgr w') = listeners (mgr w)
  /\ pendingCouponCode (mgr w') = pendingCouponCode (mgr w)
  /\ localStorage w' = localStorage w
  /\ timers w' = timers w.
Proof.
  destruct (notifyListeners_cases w) as [[-> _]|[-> _]]; by repeat split.
Qed.

Lemma notifyListeners_last (w : World) :
  lastNotifiedState (mgr (notifyListeners w))
  = Some (authState (mgr w), user (mgr w)).
Proof. by destruct (notifyListeners_cases w) as [[-> H]|[-> _]]. Qed.

Lemma notifyListeners_synced (w : World) : synced (notifyListeners w).
Proof.
  unfold synced. rewrite notifyListeners_last.
  by destruct (notifyListeners_fields w) as (-> & -> & _).
Qed.

(** What a notification adds to the trace. *)
Lemma notifyListeners_trace (w : World) :
  exists es,
    trace (notifyListeners w) = (trace w ++ es)%list
    /\ Forall (fun e => exists l,
                 e = Notify l (authState (mgr w)) (user (mgr w))) es.
Proof.
  destruct (notifyListeners_cases w) as [[-> _]|[-> _]].
  - exists []. by rewrite app_nil_r.
  - eexists. split; [reflexivity|].
    induction (listeners (mgr w)) as [|l ls IH]; simpl; constructor; eauto.
Qed.

(** A notification that follows a change of user is delivered. *)
Lemma notifyListeners_after_change (w : World) (u' : option AuthUser) :
  synced w -> u' <> user (mgr w) ->
  let w1 := withMgr (setUser u') w in
  trace (notifyListeners w1)
  = (trace w ++ map (fun l => Notify l (authState (mgr w)) u')
                  (listeners (mgr w)))%list.
Proof.
  intros Hs Hu w1.
  destruct (notifyListeners_cases w1) as [[_ H]|[-> _]]; [|done].
  exfalso. unfold synced in Hs. subst w1. simpl in H. rewrite H in Hs.
  congruence.
Qed.

(** ** The invariant *)

Lemma synced_emit (es : list Event) (w : World) : synced w -> synced (emit es w).
Proof. done. Qed.

Lemma synced_listener_begin (now : Z) (fb : option FirebaseUser) (w : World) :
  synced w ->
  match listener_begin now fb w with
  | LDone w' | LAwaitForceSignOut w' | LAwaitSession _ w' => synced w'
  end.
Proof.
  intros Hs. unfold listener_begin, listener_block.
  destruct (blocked now w), fb; simpl; try done; apply notifyListeners_synced.
Qed.

Lemma synced_listener (now : Z) (fb : option FirebaseUser)
    (result : option (option BackendUser)) (w : World) :
  synced (listener now fb result w).
Proof.
  unfold listener, listener_begin, listener_block, createBackendSession_finish.
  destruct (blocked now w), fb; apply notifyListeners_synced.
Qed.

Lemma synced_logout_begin (now : Z) (w : World) : synced (logout_begin now w).
Proof.
  unfold logout_begin, unsubscribe.
  set (w5 := setItem _ _ _).
  pose proof (notifyListeners_synced w5) as H.
  pose proof (notifyListeners_fields w5) as (_ & _ & _ & Hu & _).
  destruct (unsubscribeAuth (mgr (notifyListeners w5))); exact H.
Qed.

Lemma synced_updateUserData (p : PartialUser) (w : World) :
  synced w -> synced (updateUserData p w).
Proof.
  intros Hs. unfold updateUserData.
  destruct (user (mgr w)); [apply notifyListeners_synced|done].
Qed.

Lemma synced_validateAndUpdateTier (response : option FreshUser) (w : World) :
  synced w -> synced (validateAndUpdateTier response w).
Proof.
  intros Hs. unfold validateAndUpdateTier, validateAndUpdateTier_begin,
    validateAndUpdateTier_finish.
  destruct (user (mgr w)) as [u|] eqn:Hu; [|done]. simpl.
  destruct response as [fresh|]; [|done]. rewrite Hu.
  destruct (tierDiffers fresh u); [apply notifyListeners_synced|done].
Qed.

Lemma synced_initialize (now : Z) (w : World) :
  synced w -> synced (initialize now w).
Proof.
  intros Hs. unfold initialize.
  destruct (authDisabled (localStorage w)); [|done].
  destruct (recentLogout now (localStorage w));
    [apply notifyListeners_synced|done].
Qed.

Lemma synced_enableAuth (now : Z) (w : World) : synced (enableAuth now w).
Proof.
  unfold enableAuth. apply synced_initialize. unfold unsubscribe.
  set (w2 := withMgr _ _).
  pose proof (notifyListeners_synced w2) as H.
  destruct (unsubscribeAuth (mgr (notifyListeners w2))); exact H.
Qed.

Lemma synced_newManager (ls : gmap string string) (now : Z) :
  synced (initialize now (mkWorld newManager ls [] [])).
Proof. by apply synced_initialize. Qed.

(** ** The logout lock *)

(** The state in which the first segment of [logout] leaves the page. *)
Lemma logout_begin_fields (now : Z) (w : World) :
  let w1 := logout_begin now w in
  authState (mgr w1) = disabled
  /\ user (mgr w1) = None
  /\ isLoggedOut (mgr w1) = true
  /\ unsubscribeAuth (mgr w1) = false
  /\ lastNotifiedState (mgr w1) = Some (disabled, None)
  /\ localStorage w1
     = <["logout_timestamp" := toString now]>
         (<["auth_disabled" := "true"]> (localStorage w))
  /\ timers w1 = timers w.
Proof.
  unfold logout_begin, unsubscribe. set (w5 := setItem _ _ _).
  pose proof (notifyListeners_fields w5) as (Hst & Hu & Hl & _ & _ & _ & Hls & Ht).
  pose proof (notifyListeners_last w5) as Hlast.
  destruct (unsubscribeAuth (mgr (notifyListeners w5))); simpl;
    rewrite Hst, Hu, Hl, Hlast, Hls, Ht; by repeat split.
Qed.

(** The order of what that segment does: the two writes of the lock,
    then the notification, the unsubscription, and only then the first
    call of the teardown. *)
Lemma logout_begin_trace (now : Z) (w : World) :
  exists es,
    trace (logout_begin now w)
    = (trace w
       ++ [SetItem "auth_disabled" "true";
           SetItem "logout_timestamp" (toString now)]
       ++ es ++ [IdPSignOut])%list
    /\ Forall (fun e => e = IdPUnsubscribe
                        \/ exists l, e = Notify l disabled None) es.
Proof.
  unfold logout_begin, unsubscribe. set (w5 := setItem _ _ _).
  destruct (notifyListeners_trace w5) as (ns & Hns & Hall).
  assert (Hns' : Forall (fun e => e = IdPUnsubscribe
                          \/ exists l, e = Notify l disabled None) ns).
  { eapply Forall_impl; [exact Hall|]. intros e [l ->]. right. by exists l. }
  destruct (unsubscribeAuth (mgr (notifyListeners w5))); simpl; rewrite Hns.
  - exists (ns ++ [IdPUnsubscribe])%list. split.
    + subst w5. simpl. by rewrite <- !app_assoc.
    + apply Forall_app. split; [done|]. constructor; [by left|done].
  - exists ns. split; [|done]. subst w5. simpl. by rewrite <- !app_assoc.
Qed.

(** The lock written at [now] is active for exactly [lockTTL]. *)
Lemma lockActive_written (now t : Z) (ls : gmap string string) :
  lockActive t (<["logout_timestamp" := toString now]>
                  (<["auth_disabled" := "true"]> ls))
  = (t - now <? lockTTL).
Proof.
  unfold lockActive, authDisabled, recentLogout.
  rewrite lookup_insert_ne by done. rewrite !lookup_insert_eq. simpl.
  rewrite (falsy_false (toString now)) by apply toString_not_empty.
  by rewrite parseInt_toString.
Qed.

Lemma blocked_by_lock_or_state (t : Z) (w : World) :
  lockActive t (localStorage w) = true \/ authState (mgr w) = disabled ->
  blocked t w = true.
Proof.
  unfold blocked, lockActive. intros [[Ha Hr]%andb_true_iff| ->].
  - rewrite Ha. apply orb_true_r.
  - by rewrite bool_decide_eq_true_2.
Qed.

(** The tail of the blocking branch, from any state. *)
Lemma listener_block_result (w : World) :
  let w' := listener_block w in
  authState (mgr w') = disabled
  /\ user (mgr w') = None
  /\ exists es, trace w' = (trace w ++ es)%list
                /\ Forall (fun e => exists l, e = Notify l disabled None) es.
Proof.
  unfold listener_block.
  set (w0 := withMgr (setUser None) (withMgr (setAuthState disabled) w)).
  pose proof (notifyListeners_fields w0) as (-> & -> & _).
  split; [done|]. split; [done|]. apply (notifyListeners_trace w0).
Qed.

(** C1.  The first segment of [logout], the one that ends at the first
    [await], leaves the state disabled and the user cleared, and has
    written the lock, active for the 120 seconds that follow; in the trace
    the writes come before the first call of the teardown.  A sign-in
    notification that finds the lock active, or the state disabled, is
    never exchanged: the listener signs the provider out, and whatever
    happened while it waited, it ends with the state disabled and no user,
    having handed a user to no listener.  After [logout] a sign-in
    notification, at any time, changes neither and notifies nobody. *)
Theorem C1_logout_lock_rejects_sign_in (now : Z) (w : World) :
  let w1 := logout_begin now w in
  (authState (mgr w1) = disabled
   /\ user (mgr w1) = None
   /\ localStorage w1 !! "auth_disabled" = Some "true"
   /\ localStorage w1 !! "logout_timestamp" = Some (toString now)
   /\ (forall t, lockActive t (localStorage w1) = (t - now <? 120000))
   /\ exists es,
        trace w1
        = (trace w
           ++ [SetItem "auth_disabled" "true";
               SetItem "logout_timestamp" (toString now)]
           ++ es ++ [IdPSignOut])%list
        /\ Forall (fun e => e = IdPUnsubscribe
                            \/ exists l, e = Notify l disabled None) es)
  /\ (forall t wx fb,
        lockActive t (localStorage wx) = true
        \/ authState (mgr wx) = disabled ->
        listener_begin t (Some fb) wx
        = LAwaitForceSignOut (emit [IdPSignOut] wx)
        /\ forall wy,
             authState (mgr (listener_block wy)) = disabled
             /\ user (mgr (listener_block wy)) = None
             /\ exists es,
                  trace (listener_block wy) = (trace wy ++ es)%list
                  /\ Forall carriesNoUser es)
  /\ (forall t fb result,
        let w2 := listener t (Some fb) result w1 in
        authState (mgr w2) = disabled
        /\ user (mgr w2) = None
        /\ trace w2 = (trace w1 ++ [IdPSignOut])%list).
Proof.
  cbv zeta.
  pose proof (logout_begin_fields now w) as (Hst & Hu & Hlo & _ & Hlast & Hls & _).
  split; [|split].
  - split; [done|]. split; [done|]. rewrite Hls.
    split; [by rewrite lookup_insert_ne, lookup_insert_eq|].
    split; [by rewrite lookup_insert_eq|].
    split; [intros t; apply lockActive_written|apply logout_begin_trace].
  - intros t wx fb Hlock. split.
    + unfold listener_begin. by rewrite blocked_by_lock_or_state.
    + intros wy.
      destruct (listener_block_result wy) as (H1 & H2 & es & H3 & H4).
      split; [done|]. split; [done|]. exists es. split; [done|].
      eapply Forall_impl; [exact H4|]. by intros e [l ->].
  - intros t fb result. unfold listener, listener_begin.
    rewrite blocked_by_lock_or_state by (by right).
    unfold listener_block.
    set (w0 := withMgr (setUser None) (withMgr (setAuthState disabled) _)).
    destruct (notifyListeners_cases w0) as [[-> _]|[_ Hne]].
    + by subst w0.
    + exfalso. apply Hne. exact Hlast.
Qed.

(** ** Tier reconciliation *)

(** One validation is scheduled by an exchange that succeeds, two
    seconds later, and none by one that fails. *)
Lemma tier_validation_scheduled_once (now : Z)
    (result : option (option BackendUser)) (w : World) :
  timers (createBackendSession_finish now result w)
  = match result with
    | Some (Some _) => (timers w ++ [(now + 2000, TierValidation)])%list
    | _ => timers w
    end.
Proof.
  unfold createBackendSession_finish.
  match goal with |- timers (notifyListeners ?x) = _ =>
    pose proof (notifyListeners_fields x) as (_ & _ & _ & _ & _ & _ & _ & ->)
  end.
  by destruct result as [[d|]|].
Qed.

Lemma withFreshTier_changes (u : AuthUser) (fresh : FreshUser) :
  tierDiffers fresh u = true -> withFreshTier u fresh <> u.
Proof.
  unfold tierDiffers. intros H E. destruct u. simpl in *.
  injection E as E1 _ E3 E4. rewrite E1, E3, E4 in H.
  by rewrite !bool_decide_eq_true_2 in H.
Qed.

(** When one of the three compared fields differs, the four tier fields
    are overwritten, every other field is kept, and each listener is told,
    once. *)
Lemma tier_validation_overwrites (w : World) (u : AuthUser)
    (fresh : FreshUser) :
  user (mgr w) = Some u -> synced w -> tierDiffers fresh u = true ->
  let w' := validateAndUpdateTier_finish (Some fresh) w in
  user (mgr w') = Some (withFreshTier u fresh)
  /\ authState (mgr w') = authState (mgr w)
  /\ trace w'
     = (trace w
        ++ map (fun l => Notify l (authState (mgr w))
                           (Some (withFreshTier u fresh)))
             (listeners (mgr w)))%list.
Proof.
  intros Hu Hs Hd. unfold validateAndUpdateTier_finish. rewrite Hu, Hd.
  cbv zeta.
  set (w0 := withMgr (setUser (Some (withFreshTier u fresh))) w).
  pose proof (notifyListeners_fields w0) as (-> & -> & _).
  split; [done|]. split; [done|].
  apply notifyListeners_after_change; [done|].
  rewrite Hu. intros [= E]. by apply (withFreshTier_changes u fresh).
Qed.

Lemma withFreshTier_identity (u : AuthUser) (fresh : FreshUser) :
  let u' := withFreshTier u fresh in
  id u' = id u /\ email u' = email u /\ displayName u' = displayName u
  /\ provider u' = provider u /\ usedPages u' = usedPages u.
Proof. done. Qed.

(** When none of the three differs, nothing happens. *)
Lemma tier_validation_unchanged (w : World) (u : AuthUser)
    (fresh : FreshUser) :
  user (mgr w) = Some u -> tierDiffers fresh u = false ->
  validateAndUpdateTier_finish (Some fresh) w = w.
Proof.
  intros Hu Hd. unfold validateAndUpdateTier_finish. by rewrite Hu, Hd.
Qed.

(** C4.  A refresh that differs from the cached snapshot in the page
    allowance only: the test of [validateAndUpdateTier] compares the tier,
    the storyboard flag and the shots allowance, not [totalPages], so the
    cached allowance stays at 10 while the backend says 20, and no
    listener is told. *)
Theorem C4_page_allowance_change_not_reconciled :
  let w' := validateAndUpdateTier (Some freshMorePages) (signedIn freeUser) in
  f_totalPages freshMorePages = Some 20
  /\ (totalPages <$> user (mgr w')) = Some (Some 10)
  /\ user (mgr w') = Some freeUser
  /\ emitted (trace w') = [].
Proof. by vm_compute. Qed.

(** ** The demo account *)

(** C9.  While the cached user has the email [premium@demo.com], a call
    of [updateUserData], whatever it is given, leaves the tier at [pro],
    both allowances at -1 and the storyboard flag set; so does a refresh
    from the backend, which goes through [updateUserData]. *)
Theorem C9_premium_demo_forced_pro (w : World) (u : AuthUser)
    (p : PartialUser) :
  user (mgr w) = Some u ->
  email u = "premium@demo.com" ->
  let w' := updateUserData p w in
  (exists u',
     user (mgr w') = Some u'
     /\ tier u' = Some "pro"
     /\ totalPages u' = Some (-1)
     /\ maxShotsPerScene u' = Some (-1)
     /\ canGenerateStoryboards u' = Some true)
  /\ refreshFromDatabase_finish (Some p) w = w'.
Proof.
  intros Hu He. cbv zeta. split; [|done].
  unfold updateUserData. rewrite Hu, He. cbv zeta.
  set (w0 := withMgr _ w).
  pose proof (notifyListeners_fields w0) as (_ & -> & _).
  eexists. split; [reflexivity|]. done.
Qed.

(** ** Instances *)

(** The scenario of C1: a signed-in page logs out at time 0; a sign-in
    is reported one second later, and the backend would have accepted
    it. *)
Lemma C1_witness :
  let w1 := logout_begin 0 (signedIn freeUser) in
  let w2 := listener 1000 (Some sampleIdentity) (Some (Some sampleSession))
              w1 in
  lockActive 1000 (localStorage w1) = true
  /\ listener_begin 1000 (Some sampleIdentity) w1
     = LAwaitForceSignOut (emit [IdPSignOut] w1)
  /\ authState (mgr w2) = disabled
  /\ user (mgr w2) = None
  /\ trace w2 = (trace w1 ++ [IdPSignOut])%list.
Proof.
  destruct (C1_logout_lock_rejects_sign_in 0 (signedIn freeUser))
    as ((_ & _ & _ & _ & Hlock & _) & Hguard & Hafter).
  split; [exact (Hlock 1000)|]. split.
  - exact (proj1 (Hguard 1000 _ sampleIdentity (or_introl (Hlock 1000)))).
  - exact (Hafter 1000 sampleIdentity (Some (Some sampleSession))).
Defined.

Lemma C9_witness :
  let w' := updateUserData freePartial (signedIn demoUser) in
  (exists u',
     user (mgr w') = Some u'
     /\ tier u' = Some "pro"
     /\ totalPages u' = Some (-1)
     /\ maxShotsPerScene u' = Some (-1)
     /\ canGenerateStoryboards u' = Some true)
  /\ refreshFromDatabase_finish (Some freePartial) (signedIn demoUser) = w'.
Proof.
  exact (C9_premium_demo_forced_pro (signedIn demoUser) demoUser freePartial
           eq_refl eq_refl).
Defined.

(* --------------------------------------------------------------------- *)
(** ** Further properties of the manager *)
(* --------------------------------------------------------------------- *)

(** *** What notifyListeners and the teardown leave alone *)

Lemma nl_authState (w : World) :
  authState (mgr (notifyListeners w)) = authState (mgr w).
Proof. apply notifyListeners_fields. Qed.

Lemma nl_user (w : World) : user (mgr (notifyListeners w)) = user (mgr w).
Proof. apply notifyListeners_fields. Qed.

Lemma nl_isLoggedOut (w : World) :
  isLoggedOut (mgr (notifyListeners w)) = isLoggedOut (mgr w).
Proof. apply notifyListeners_fields. Qed.

Lemma nl_unsubscribeAuth (w : World) :
  unsubscribeAuth (mgr (notifyListeners w)) = unsubscribeAuth (mgr w).
Proof. apply notifyListeners_fields. Qed.

Lemma nl_listeners (w : World) :
  listeners (mgr (notifyListeners w)) = listeners (mgr w).
Proof. apply notifyListeners_fields. Qed.

Lemma nl_pendingCouponCode (w : World) :
  pendingCouponCode (mgr (notifyListeners w)) = pendingCouponCode (mgr w).
Proof. apply notifyListeners_fields. Qed.

Lemma nl_localStorage (w : World) :
  localStorage (notifyListeners w) = localStorage w.
Proof. apply notifyListeners_fields. Qed.

Lemma nl_timers (w : World) : timers (notifyListeners w) = timers w.
Proof. apply notifyListeners_fields. Qed.

Lemma removeAll_mgr (ks : list string) (w : World) :
  mgr (fold_left (fun w k => removeItem k w) ks w) = mgr w
  /\ timers (fold_left (fun w k => removeItem k w) ks w) = timers w
  /\ trace (fold_left (fun w k => removeItem k w) ks w)
     = (trace w ++ map RemoveItem ks)%list.
Proof.
  revert w. induction ks as [|k ks IH]; intros w; simpl.
  - by rewrite app_nil_r.
  - destruct (IH (removeItem k w)) as (-> & -> & ->). simpl.
    by rewrite <- app_assoc.
Qed.

Lemma clearFirebaseData_mgr (w : World) :
  mgr (clearFirebaseData w) = mgr w
  /\ timers (clearFirebaseData w) = timers w
  /\ exists ks,
       trace (clearFirebaseData w)
       = (trace w ++ map RemoveItem ks ++ [SessionClear; ClearCookies])%list.
Proof.
  unfold clearFirebaseData.
  set (ks := List.filter isAuthKey _).
  destruct (removeAll_mgr ks w) as (Hm & Ht & Htr). simpl.
  rewrite Hm, Ht, Htr. split; [done|]. split; [done|].
  exists (ks ++ ["auth_disabled"; "logout_timestamp"])%list.
  rewrite map_app. simpl. by rewrite <- !app_assoc.
Qed.

(** Pushes the projections through [notifyListeners]. *)
Ltac through_notify :=
  rewrite ?nl_authState, ?nl_user, ?nl_isLoggedOut, ?nl_unsubscribeAuth,
    ?nl_listeners, ?nl_pendingCouponCode, ?nl_localStorage, ?nl_timers.

(** *** Traces *)

Lemma lastFor_app (l : nat) (es es' : list Event)
    (acc : option (AuthState * option AuthUser)) :
  lastFor l (es ++ es') acc = lastFor l es' (lastFor l es acc).
Proof.
  revert acc. induction es as [|e es IH]; intros acc; [done|].
  destruct e; simpl; apply IH.
Qed.

Lemma lastFor_quiet (l : nat) (es : list Event)
    (acc : option (AuthState * option AuthUser)) :
  forallb quiet_event es = true -> lastFor l es acc = acc.
Proof.
  revert acc. induction es as [|e es IH]; intros acc H; [done|].
  simpl in H. apply andb_true_iff in H as [He Hes].
  destruct e; simpl; try discriminate He; by apply IH.
Qed.

Lemma lastFor_same (l : nat) (ls : list nat) (st : AuthState)
    (u : option AuthUser) :
  lastFor l (map (fun l' => Notify l' st u) ls) (Some (st, u))
  = Some (st, u).
Proof.
  induction ls as [|l' ls IH]; [done|]. simpl. by destruct (Nat.eqb l' l).
Qed.

Lemma lastFor_notified (l : nat) (ls : list nat) (st : AuthState)
    (u : option AuthUser) (acc : option (AuthState * option AuthUser)) :
  In l ls ->
  lastFor l (map (fun l' => Notify l' st u) ls) acc = Some (st, u).
Proof.
  revert acc. induction ls as [|l' ls IH]; intros acc Hin; [done|].
  simpl. destruct Hin as [->|Hin]; [|by apply IH].
  rewrite Nat.eqb_refl. apply lastFor_same.
Qed.

Lemma map_RemoveItem_quiet (ks : list string) :
  forallb quiet_event (map RemoveItem ks) = true.
Proof. by induction ks. Qed.

(** *** Listeners are never left with a stale state *)

Lemma audience_refl (w : World) : sameAudience w w.
Proof. done. Qed.

Lemma audience_trans (w1 w2 w3 : World) :
  sameAudience w1 w2 -> sameAudience w2 w3 -> sameAudience w1 w3.
Proof.
  intros (H1 & H2 & H3) (H4 & H5 & H6). split; [congruence|].
  split; [congruence|]. intros l. by rewrite H6.
Qed.

(** Settles [sameAudience] between a world and the same world after
    field updates and events that call no listener. *)
Ltac audience :=
  split; [reflexivity|split; [reflexivity|]];
  intros ?; unfold lastSeen; simpl; rewrite ?lastFor_app; reflexivity.

Lemma audience_clearFirebaseData (w : World) :
  sameAudience w (clearFirebaseData w).
Proof.
  destruct (clearFirebaseData_mgr w) as (Hm & _ & ks & Htr).
  split; [by rewrite Hm|]. split; [by rewrite Hm|].
  intros l. unfold lastSeen. rewrite Htr, !lastFor_app. simpl.
  by rewrite lastFor_quiet by apply map_RemoveItem_quiet.
Qed.

Lemma inv_frame (w w' : World) :
  synced w /\ upToDate w ->
  authState (mgr w') = authState (mgr w) -> user (mgr w') = user (mgr w) ->
  sameAudience w w' ->
  synced w' /\ upToDate w'.
Proof.
  intros [Hs Hu] Hst Hus (Hl & Hn & Hsee). split.
  - unfold synced in *. by rewrite Hn, Hst, Hus.
  - intros l Hin. rewrite Hsee, Hst, Hus. apply Hu. by rewrite <- Hl.
Qed.

(** A notification after any change of state or user brings every
    listener up to date. *)
Lemma inv_notify (w w0 : World) :
  synced w /\ upToDate w -> sameAudience w w0 ->
  synced (notifyListeners w0) /\ upToDate (notifyListeners w0).
Proof.
  intros [Hs Hu] (Hl & Hn & Hsee). split; [apply notifyListeners_synced|].
  intros l Hin. through_notify. rewrite nl_listeners in Hin.
  destruct (notifyListeners_cases w0) as [[E Hlast]|[E _]];
    unfold lastSeen; rewrite E.
  - rewrite Hn in Hlast. unfold synced in Hs. rewrite Hlast in Hs.
    rewrite Hs. fold (lastSeen l w0). rewrite Hsee. apply Hu.
    by rewrite <- Hl.
  - simpl. rewrite lastFor_app. by apply lastFor_notified.
Qed.

Lemma inv_teardown (now : Z) (w : World) :
  synced w /\ upToDate w ->
  synced (scheduleReload now (clearFirebaseData w))
  /\ upToDate (scheduleReload now (clearFirebaseData w)).
Proof.
  intros H. destruct (clearFirebaseData_mgr w) as (Hm & _).
  apply (inv_frame w); [done|..].
  - unfold scheduleReload, setTimeout. cbn [mgr]. by rewrite Hm.
  - unfold scheduleReload, setTimeout. cbn [mgr]. by rewrite Hm.
  - eapply audience_trans; [apply audience_clearFirebaseData|].
    split; [reflexivity|]. split; [reflexivity|]. intros l. reflexivity.
Qed.

Lemma inv_initialize (now : Z) (w : World) :
  synced w /\ upToDate w ->
  synced (initialize now w) /\ upToDate (initialize now w).
Proof.
  intros H. unfold initialize, subscribe.
  destruct (authDisabled (localStorage w)).
  - destruct (recentLogout now (localStorage w)).
    + apply (inv_notify w); [done|audience].
    + apply (inv_frame w); [done|done|done|audience].
  - apply (inv_frame w); [done|done|done|audience].
Qed.

Lemma inv_construct (now : Z) (ls : gmap string string) :
  synced (construct now ls) /\ upToDate (construct now ls).
Proof. apply inv_initialize. split; [done|by intros l []]. Qed.

Lemma inv_perform (now : Z) (a : Action) (w : World) :
  synced w /\ upToDate w ->
  synced (perform now a w) /\ upToDate (perform now a w).
Proof.
  intros H. destruct a; simpl.
  - unfold listener_begin, listener_block.
    destruct (blocked now w), fb;
      first [ apply (inv_notify w); [done|audience]
            | apply (inv_frame w); [done|done|done|audience] ].
  - apply (inv_notify w); [done|audience].
  - unfold createBackendSession_finish, scheduleAutomaticTierValidation.
    destruct result as [[d|]|]; apply (inv_notify w); try done; audience.
  - unfold logout_begin. set (w5 := setItem _ _ _).
    assert (H5 : synced (notifyListeners w5) /\ upToDate (notifyListeners w5))
      by (apply (inv_notify w); [done|subst w5; audience]).
    unfold unsubscribe.
    destruct (unsubscribeAuth (mgr (notifyListeners w5)));
      apply (inv_frame (notifyListeners w5)); try done; audience.
  - unfold logout_afterSignOut. destruct resolved;
      [apply (inv_frame w); [done|done|done|audience]|by apply inv_teardown].
  - unfold logout_afterFetch. destruct response as [[|]|];
      try by apply inv_teardown.
    apply inv_teardown. apply (inv_frame w); [done|done|done|audience].
  - unfold enableAuth. apply inv_initialize.
    set (w2 := withMgr _ _).
    assert (H2 : synced (notifyListeners w2) /\ upToDate (notifyListeners w2))
      by (apply (inv_notify w); [done|subst w2; audience]).
    unfold unsubscribe.
    destruct (unsubscribeAuth (mgr (notifyListeners w2)));
      [apply (inv_frame (notifyListeners w2)); try done; audience|done].
  - unfold updateUserData. destruct (user (mgr w)); [|done].
    apply (inv_notify w); [done|audience].
  - unfold refreshFromDatabase_finish, updateUserData.
    destruct response; [|done]. destruct (user (mgr w)); [|done].
    apply (inv_notify w); [done|audience].
  - unfold validateAndUpdateTier_begin. destruct (user (mgr w)); [|done].
    apply (inv_frame w); [done|done|done|audience].
  - unfold validateAndUpdateTier_finish. destruct response; [|done].
    destruct (user (mgr w)) as [u|]; [|done].
    destruct (tierDiffers f u); [|done].
    apply (inv_notify w); [done|audience].
  - unfold signUpWithEmail_begin. destruct isPremiumCoupon; [|done].
    apply (inv_frame w); [done|done|done|audience].
  - apply (inv_frame w); [done|done|done|audience].
  - destruct H as [Hs Hu]. split; [done|].
    intros l' Hin. unfold lastSeen, onAuthStateChange in *. simpl in *.
    rewrite lastFor_app. simpl. apply in_app_or in Hin.
    destruct (Nat.eqb_spec l l') as [->|Hne]; [done|].
    destruct Hin as [Hin|[->|[]]]; [by apply Hu|done].
  - destruct H as [Hs Hu]. split; [done|].
    intros l' [Hin _]%filter_In. by apply Hu.
Qed.

(** X16.  At every point where the page can run other code, each
    listener on the list was last called with the state and the user the
    manager holds at that point: no method changes either and returns
    (or awaits) without the listeners having been told. *)
Theorem X16_listeners_hold_the_current_state (w : World) (l : nat) :
  reachable w -> In l (listeners (mgr w)) ->
  lastSeen l w = Some (authState (mgr w), user (mgr w)).
Proof.
  intros Hw. revert l.
  cut (synced w /\ upToDate w); [by intros [_ H]|].
  induction Hw as [now ls|w now a Hw IH];
    [apply inv_construct|by apply inv_perform].
Qed.

(** *** The user and the state go together *)

Lemma teardown_mgr (now : Z) (w : World) :
  mgr (scheduleReload now (clearFirebaseData w)) = mgr w.
Proof. by destruct (clearFirebaseData_mgr w) as (Hm & _). Qed.

Ltac state_cases := simpl; through_notify; simpl; intuition congruence.

Lemma userMatchesState_perform (now : Z) (a : Action) (w : World) :
  userMatchesState w -> userMatchesState (perform now a w).
Proof.
  unfold userMatchesState. intros [H1 H2].
  destruct a; cbn [perform].
  - unfold listener_begin, listener_block.
    destruct (blocked now w), fb; state_cases.
  - unfold listener_block. state_cases.
  - unfold createBackendSession_finish, scheduleAutomaticTierValidation.
    destruct result as [[d|]|]; state_cases.
  - destruct (logout_begin_fields now w) as (-> & -> & _). state_cases.
  - unfold logout_afterSignOut. destruct resolved; [state_cases|].
    rewrite teardown_mgr. state_cases.
  - unfold logout_afterFetch.
    destruct response as [[|]|]; rewrite teardown_mgr; state_cases.
  - unfold enableAuth, initialize, subscribe, unsubscribe.
    set (w2 := withMgr _ _).
    assert (Hst : authState (mgr (notifyListeners w2)) = loading)
      by (by through_notify).
    destruct (unsubscribeAuth (mgr (notifyListeners w2)));
      repeat match goal with
        | |- context [if ?c then _ else _] => destruct c
        end; simpl; through_notify; simpl in *; through_notify;
      intuition congruence.
  - unfold updateUserData. destruct (user (mgr w)) as [u|] eqn:Hu;
      state_cases.
  - unfold refreshFromDatabase_finish, updateUserData.
    destruct response; [|state_cases].
    destruct (user (mgr w)) as [u|] eqn:Hu; state_cases.
  - unfold validateAndUpdateTier_begin.
    destruct (user (mgr w)) eqn:Hu; state_cases.
  - unfold validateAndUpdateTier_finish. destruct response; [|state_cases].
    destruct (user (mgr w)) as [u|] eqn:Hu; [|state_cases].
    destruct (tierDiffers f u); state_cases.
  - unfold signUpWithEmail_begin. destruct isPremiumCoupon; state_cases.
  - state_cases.
  - state_cases.
  - state_cases.
Qed.

Lemma userMatchesState_construct (now : Z) (ls : gmap string string) :
  userMatchesState (construct now ls).
Proof.
  unfold userMatchesState, construct, initialize, subscribe. simpl.
  destruct (authDisabled ls); [destruct (recentLogout now ls)|];
    state_cases.
Qed.

(** X17.  At every point where the page can run other code, a user is
    held when the state is [authenticated], and none is held when the
    state is [disabled] or [unauthenticated]: the two fields are never
    left half-updated. *)
Theorem X17_user_and_state_go_together (w : World) :
  reachable w ->
  (authState (mgr w) = authenticated -> user (mgr w) <> None)
  /\ (authState (mgr w) = disabled \/ authState (mgr w) = unauthenticated ->
      user (mgr w) = None).
Proof.
  intros Hw. change (userMatchesState w).
  induction Hw as [now ls|w now a Hw IH];
    [apply userMatchesState_construct|by apply userMatchesState_perform].
Qed.

(** *** One subscription to the provider *)

Lemma liveSubscriptions_app (es es' : list Event) :
  liveSubscriptions (es ++ es')
  = liveSubscriptions es + liveSubscriptions es'.
Proof.
  induction es as [|e es IH]; [done|]. destruct e; simpl; rewrite ?IH; lia.
Qed.

Lemma liveSubscriptions_quiet (es : list Event) :
  Forall (fun e => e <> IdPSubscribe /\ e <> IdPUnsubscribe) es ->
  liveSubscriptions es = 0.
Proof.
  induction 1 as [|e es [H1 H2] _ IH]; [done|]. by destruct e.
Qed.

Lemma nl_liveSubscriptions (w : World) :
  liveSubscriptions (trace (notifyListeners w))
  = liveSubscriptions (trace w).
Proof.
  destruct (notifyListeners_trace w) as (es & -> & Hes).
  rewrite liveSubscriptions_app, (liveSubscriptions_quiet es); [lia|].
  eapply Forall_impl; [exact Hes|]. by intros e [l ->].
Qed.

Lemma teardown_liveSubscriptions (now : Z) (w : World) :
  liveSubscriptions (trace (scheduleReload now (clearFirebaseData w)))
  = liveSubscriptions (trace w).
Proof.
  destruct (clearFirebaseData_mgr w) as (_ & _ & ks & Htr).
  unfold scheduleReload, setTimeout. cbn [trace]. rewrite Htr.
  rewrite !liveSubscriptions_app, (liveSubscriptions_quiet (map _ ks)).
  - simpl. lia.
  - clear Htr. induction ks as [|k ks IH]; simpl; constructor; done.
Qed.

Lemma authDisabled_removed (ls : gmap string string) :
  authDisabled (delete "logout_timestamp" (delete "auth_disabled" ls))
  = false
  /\ forall t, recentLogout t
                 (delete "logout_timestamp" (delete "auth_disabled" ls))
               = false.
Proof.
  unfold authDisabled, recentLogout.
  rewrite lookup_delete_ne, !lookup_delete_eq by done. done.
Qed.

Ltac count_subscriptions :=
  cbn [trace mgr emit withMgr setItem removeItem setTimeout
       unsubscribeAuth setUnsubscribeAuth setAuthState setUser
       setIsLoggedOut setPendingCouponCode setLastNotifiedState];
  rewrite ?liveSubscriptions_app, ?nl_liveSubscriptions,
    ?nl_unsubscribeAuth;
  cbn [trace mgr emit withMgr setItem removeItem setTimeout
       unsubscribeAuth setUnsubscribeAuth setAuthState setUser
       setIsLoggedOut setPendingCouponCode setLastNotifiedState
       liveSubscriptions];
  rewrite ?liveSubscriptions_app; simpl liveSubscriptions.

Lemma oneSubscription_perform (now : Z) (a : Action) (w : World) :
  oneSubscription w -> oneSubscription (perform now a w).
Proof.
  unfold oneSubscription. intros H. destruct a; cbn [perform].
  - unfold listener_begin, listener_block.
    destruct (blocked now w), fb; count_subscriptions; rewrite H; lia.
  - unfold listener_block. count_subscriptions. by rewrite H.
  - unfold createBackendSession_finish, scheduleAutomaticTierValidation.
    destruct result as [[d|]|]; count_subscriptions; by rewrite H.
  - unfold logout_begin, unsubscribe. set (w5 := setItem _ _ _).
    assert (H5 : liveSubscriptions (trace (notifyListeners w5))
                 = liveSubscriptions (trace w))
      by (rewrite nl_liveSubscriptions; subst w5; count_subscriptions; lia).
    assert (Hf : unsubscribeAuth (mgr (notifyListeners w5))
                 = unsubscribeAuth (mgr w)) by (by through_notify).
    rewrite Hf. destruct (unsubscribeAuth (mgr w));
      cbn [trace mgr emit withMgr unsubscribeAuth setUnsubscribeAuth];
      rewrite ?liveSubscriptions_app, H5, H; simpl; lia.
  - unfold logout_afterSignOut. destruct resolved.
    + count_subscriptions. rewrite H. lia.
    + by rewrite teardown_liveSubscriptions, teardown_mgr.
  - unfold logout_afterFetch. destruct response as [[|]|];
      rewrite teardown_liveSubscriptions, teardown_mgr;
      count_subscriptions; rewrite ?H; lia.
  - unfold enableAuth, unsubscribe. set (w2 := withMgr _ _).
    assert (H2 : liveSubscriptions (trace (notifyListeners w2))
                 = liveSubscriptions (trace w))
      by (rewrite nl_liveSubscriptions; subst w2; count_subscriptions; lia).
    assert (Hf : unsubscribeAuth (mgr (notifyListeners w2))
                 = unsubscribeAuth (mgr w)) by (by through_notify).
    assert (Hls : localStorage (notifyListeners w2)
                  = delete "logout_timestamp"
                      (delete "auth_disabled" (localStorage w)))
      by (by through_notify).
    destruct (authDisabled_removed (localStorage w)) as [Hno _].
    rewrite Hf. unfold initialize, subscribe.
    destruct (unsubscribeAuth (mgr w));
      cbn [localStorage emit]; rewrite Hls, Hno;
      cbn [trace mgr emit withMgr unsubscribeAuth setUnsubscribeAuth];
      rewrite ?liveSubscriptions_app, H2, H; simpl; lia.
  - unfold updateUserData. destruct (user (mgr w)); [|done].
    count_subscriptions. by rewrite H.
  - unfold refreshFromDatabase_finish, updateUserData.
    destruct response; [|done]. destruct (user (mgr w)); [|done].
    count_subscriptions. by rewrite H.
  - unfold validateAndUpdateTier_begin. destruct (user (mgr w)); [|done].
    simpl. count_subscriptions. rewrite H. lia.
  - unfold validateAndUpdateTier_finish. destruct response; [|done].
    destruct (user (mgr w)) as [u|]; [|done].
    destruct (tierDiffers f u); [|done]. count_subscriptions. by rewrite H.
  - unfold signUpWithEmail_begin. by destruct isPremiumCoupon.
  - done.
  - unfold onAuthStateChange. count_subscriptions. rewrite H. lia.
  - done.
Qed.

Lemma oneSubscription_construct (now : Z) (ls : gmap string string) :
  oneSubscription (construct now ls).
Proof.
  unfold oneSubscription, construct, initialize, subscribe. simpl.
  destruct (authDisabled ls); [destruct (recentLogout now ls)|];
    count_subscriptions; done.
Qed.

(** X18.  The manager never holds more than one subscription to the
    provider: at every point the subscriptions opened and not yet closed
    number one when [unsubscribeAuth] is set and none when it is not.  In
    particular [enableAuth], called any number of times, closes the
    subscription it finds before [initialize] opens the next. *)
Theorem X18_at_most_one_subscription (w : World) :
  reachable w ->
  liveSubscriptions (trace w) = (if unsubscribeAuth (mgr w) then 1 else 0).
Proof.
  intros Hw. change (oneSubscription w).
  induction Hw as [now ls|w now a Hw IH];
    [apply oneSubscription_construct|by apply oneSubscription_perform].
Qed.

(** *** Start-up and the lock *)

(** How the constructor leaves the manager, by what it finds in the
    storage. *)
Lemma construct_cases (now : Z) (ls : gmap string string) :
  (lockActive now ls = true ->
   authState (mgr (construct now ls)) = disabled
   /\ user (mgr (construct now ls)) = None
   /\ isLoggedOut (mgr (construct now ls)) = true
   /\ unsubscribeAuth (mgr (construct now ls)) = false
   /\ trace (construct now ls) = []
   /\ localStorage (construct now ls) = ls)
  /\ (lockActive now ls = false ->
      authState (mgr (construct now ls)) = loading
      /\ isLoggedOut (mgr (construct now ls)) = false
      /\ unsubscribeAuth (mgr (construct now ls)) = true
      /\ liveSubscriptions (trace (construct now ls)) = 1
      /\ localStorage (construct now ls)
         = (if authDisabled ls
            then delete "logout_timestamp" (delete "auth_disabled" ls)
            else ls)).
Proof.
  unfold lockActive, construct, initialize, subscribe. simpl.
  destruct (authDisabled ls), (recentLogout now ls); simpl;
    split; intros Hl; try discriminate Hl; by vm_compute.
Qed.

(** X19.  The constructor reads the lock before anything else.  With
    the lock set and unexpired the manager starts disabled, without user,
    without subscribing to the provider and without touching the storage.
    Otherwise it starts in [loading] with one subscription, and a lock
    that was set but has expired is removed from the storage.  A page that
    is loaded again while the lock written by [logout] at [t0] is still in
    the storage starts disabled exactly during the 120 seconds that follow
    [t0]. *)
Theorem X19_constructor_reads_the_lock_first
    (now : Z) (ls : gmap string string) :
  let w := construct now ls in
  (lockActive now ls = true ->
   authState (mgr w) = disabled /\ user (mgr w) = None
   /\ isLoggedOut (mgr w) = true /\ unsubscribeAuth (mgr w) = false
   /\ trace w = [] /\ localStorage w = ls)
  /\ (lockActive now ls = false ->
      authState (mgr w) = loading /\ isLoggedOut (mgr w) = false
      /\ unsubscribeAuth (mgr w) = true
      /\ liveSubscriptions (trace w) = 1
      /\ localStorage w
         = (if authDisabled ls
            then delete "logout_timestamp" (delete "auth_disabled" ls)
            else ls))
  /\ (forall w0 t0,
        authState (mgr (construct now (localStorage (logout_begin t0 w0))))
        = if now - t0 <? 120000 then disabled else loading).
Proof.
  cbv zeta. split; [apply construct_cases|]. split; [apply construct_cases|].
  intros w0 t0.
  destruct (logout_begin_fields t0 w0) as (_ & _ & _ & _ & _ & -> & _).
  set (ls' := <["logout_timestamp" := _]> _).
  pose proof (lockActive_written t0 now (localStorage w0)) as Hl.
  fold ls' in Hl. unfold lockTTL in Hl.
  destruct (now - t0 <? 120000).
  - by apply (construct_cases now ls').
  - by apply (construct_cases now ls').
Qed.

Lemma removeAll_lookup (ks : list string) (w : World) (k : string) :
  localStorage (fold_left (fun w k => removeItem k w) ks w) !! k
  = if bool_decide (k ∈ ks) then None else localStorage w !! k.
Proof.
  revert w. induction ks as [|k' ks IH]; intros w; simpl; [done|].
  rewrite IH. simpl.
  destruct (bool_decide_reflect (k ∈ ks)) as [Hin|Hin].
  - by rewrite bool_decide_eq_true_2 by (by right).
  - destruct (decide (k = k')) as [->|Hne].
    + rewrite bool_decide_eq_true_2 by (by left). apply lookup_delete_eq.
    + rewrite bool_decide_eq_false_2
        by (by intros [?|?]%elem_of_cons).
      by apply lookup_delete_ne.
Qed.

Lemma firebaseKeys_In (m : gmap string string) (k : string) :
  In k (List.filter isAuthKey (map fst (map_to_list m)))
  <-> isAuthKey k = true /\ is_Some (m !! k).
Proof.
  rewrite filter_In, in_map_iff. split.
  - intros [([k' v] & <- & Hin%list_elem_of_In%elem_of_map_to_list) Hk].
    simpl in *. eauto.
  - intros [Hk [v Hv]]. split; [|done]. exists (k, v). split; [done|].
    by apply list_elem_of_In, elem_of_map_to_list.
Qed.

(** What [clearFirebaseData] leaves in the storage. *)
Lemma clearFirebaseData_lookup (w : World) (k : string) :
  localStorage (clearFirebaseData w) !! k
  = if (isAuthKey k || String.eqb k "logout_timestamp")%bool
    then None else localStorage w !! k.
Proof.
  unfold clearFirebaseData. simpl.
  destruct (String.eqb_spec k "logout_timestamp") as [->|Hts].
  { rewrite orb_true_r. apply lookup_delete_eq. }
  rewrite orb_false_r, lookup_delete_ne by done.
  destruct (decide (k = "auth_disabled")) as [->|Had].
  { by rewrite lookup_delete_eq. }
  rewrite lookup_delete_ne, removeAll_lookup by done.
  destruct (isAuthKey k) eqn:Hk.
  - destruct (localStorage w !! k) as [v|] eqn:Hv.
    + rewrite bool_decide_eq_true_2; [done|].
      apply list_elem_of_In, firebaseKeys_In. eauto.
    + by destruct (bool_decide _).
  - rewrite bool_decide_eq_false_2; [done|].
    intros [H _]%list_elem_of_In%firebaseKeys_In. congruence.
Qed.

Lemma clearFirebaseData_lock_gone (w : World) (t : Z) :
  lockActive t (localStorage (clearFirebaseData w)) = false.
Proof.
  unfold lockActive, authDisabled. by rewrite clearFirebaseData_lookup.
Qed.

(** X20.  [clearFirebaseData] removes from the storage the two keys of
    the lock and every key that contains [firebase] or [auth], and leaves
    every other key with its value; the fields of the manager and the
    timers are not touched.  Afterwards no lock is active at any time. *)
Theorem X20_clearFirebaseData_erases_auth_keys (w : World) :
  (forall k, localStorage (clearFirebaseData w) !! k
             = if (isAuthKey k || String.eqb k "logout_timestamp")%bool
               then None else localStorage w !! k)
  /\ localStorage (clearFirebaseData w) !! "auth_disabled" = None
  /\ localStorage (clearFirebaseData w) !! "logout_timestamp" = None
  /\ (forall t, lockActive t (localStorage (clearFirebaseData w)) = false)
  /\ mgr (clearFirebaseData w) = mgr w
  /\ timers (clearFirebaseData w) = timers w.
Proof.
  destruct (clearFirebaseData_mgr w) as (Hm & Ht & _).
  split; [apply clearFirebaseData_lookup|].
  assert (H1 : localStorage (clearFirebaseData w) !! "auth_disabled" = None)
    by (by rewrite clearFirebaseData_lookup).
  assert (H2 : localStorage (clearFirebaseData w) !! "logout_timestamp"
               = None) by (by rewrite clearFirebaseData_lookup).
  split; [done|]. split; [done|]. split; [|done].
  intros t. apply clearFirebaseData_lock_gone.
Qed.

(** X21.  A logout that runs to its end erases the lock it wrote.  When
    the teardown has finished, whatever the backend answered, no lock is
    active in the storage and the reload is queued 100 ms ahead; in the
    page that is still there the manager stays disabled and logged out,
    but the manager of the page that is loaded next starts in [loading]
    and subscribes to the provider. *)
Theorem X21_finished_logout_leaves_no_lock
    (w : World) (t0 t1 t2 t : Z) (response : option bool) :
  let w3 := logout_afterFetch t2 response
              (logout_afterSignOut t1 true (logout_begin t0 w)) in
  lockActive t (localStorage w3) = false
  /\ In (t2 + 100, Reload) (timers w3)
  /\ authState (mgr w3) = disabled /\ isLoggedOut (mgr w3) = true
  /\ authState (mgr (construct t (localStorage w3))) = loading
  /\ unsubscribeAuth (mgr (construct t (localStorage w3))) = true.
Proof.
  cbv zeta.
  destruct (logout_begin_fields t0 w) as (Hst & _ & Hlo & _).
  set (w1 := logout_afterSignOut t1 true (logout_begin t0 w)).
  assert (Hm1 : mgr w1 = mgr (logout_begin t0 w)) by done.
  assert (Hshape : exists w2,
    logout_afterFetch t2 response w1 = scheduleReload t2 (clearFirebaseData w2)
    /\ mgr w2 = mgr w1).
  { unfold logout_afterFetch. destruct response as [[|]|]; eauto. }
  destruct Hshape as (w2 & -> & Hm2).
  pose proof (clearFirebaseData_lock_gone w2) as Hlock.
  assert (Hls : localStorage (scheduleReload t2 (clearFirebaseData w2))
                = localStorage (clearFirebaseData w2)) by done.
  rewrite Hls, teardown_mgr, Hm2, Hm1, Hst, Hlo.
  split; [apply Hlock|]. split.
  { unfold scheduleReload, setTimeout. cbn [timers]. apply in_or_app.
    right. by left. }
  split; [done|]. split; [done|].
  destruct (construct_cases t (localStorage (clearFirebaseData w2)))
    as [_ H].
  by destruct (H (Hlock t)) as (-> & _ & -> & _).
Qed.

(** *** Exchanges, and what follows a logout *)



(** X23.  An exchange that was under way when [logout] ran is not
    stopped by it.  When it settles with an ok response the state goes
    back to [authenticated] with the user of the response, and every
    listener is told so, although the manager is still logged out and the
    lock written at [t0] is still active for [t - t0 < 120000]: the guard
    is read when the notification arrives, not when the exchange ends. *)
Theorem X23_exchange_in_flight_overrides_logout
    (w : World) (t0 t : Z) (d : BackendUser) :
  let w1 := logout_begin t0 w in
  let w2 := createBackendSession_finish t (Some (Some d)) w1 in
  authState (mgr w1) = disabled
  /\ authState (mgr w2) = authenticated
  /\ user (mgr w2) = Some (sessionUser d)
  /\ isLoggedOut (mgr w2) = true
  /\ lockActive t (localStorage w2) = (t - t0 <? 120000)
  /\ trace w2
     = (trace w1
        ++ map (fun l => Notify l authenticated (Some (sessionUser d)))
             (listeners (mgr w)))%list.
Proof.
  cbv zeta.
  destruct (logout_begin_fields t0 w) as (Hst & Hu & Hlo & _ & Hlast & Hls & _).
  assert (Hl : listeners (mgr (logout_begin t0 w)) = listeners (mgr w)).
  { unfold logout_begin, unsubscribe. set (w5 := setItem _ _ _).
    pose proof (nl_listeners w5) as H5.
    by destruct (unsubscribeAuth (mgr (notifyListeners w5))). }
  pose proof (lockActive_written t0 t (localStorage w)) as Hlock.
  rewrite <- Hls in Hlock.
  generalize dependent (logout_begin t0 w). intros w1 Hst Hu Hlo Hlast _ Hl Hlock.
  split; [done|].
  unfold createBackendSession_finish, scheduleAutomaticTierValidation.
  cbn [withMgr mgr setUser user]. through_notify. cbn.
  do 3 (split; [done|]). split; [done|].
  match goal with |- trace (notifyListeners ?x) = _ =>
    destruct (notifyListeners_cases x) as [[_ H]|[-> _]] end.
  - cbn in H. rewrite Hlast in H. discriminate H.
  - cbn. by rewrite Hl.
Qed.

(** X24.  [enableAuth] undoes a logout.  After it the lock is gone from
    the storage, the manager is in [loading], not logged out, and
    subscribed; a sign-in that the provider reports next is not blocked
    but exchanged with the backend.  This holds from any state, the one
    that [logout] leaves included. *)
Theorem X24_enableAuth_lets_sign_in_through
    (w : World) (now t : Z) (fb : FirebaseUser) :
  let w1 := enableAuth now w in
  authState (mgr w1) = loading
  /\ isLoggedOut (mgr w1) = false
  /\ unsubscribeAuth (mgr w1) = true
  /\ localStorage w1
     = delete "logout_timestamp" (delete "auth_disabled" (localStorage w))
  /\ lockActive t (localStorage w1) = false
  /\ blocked t w1 = false
  /\ listener_begin t (Some fb) w1
     = LAwaitSession fb (emit [GetIdToken (uid fb)] w1).
Proof.
  cbv zeta.
  destruct (authDisabled_removed (localStorage w)) as [Hno Hrec].
  assert (Hfields :
    authState (mgr (enableAuth now w)) = loading
    /\ isLoggedOut (mgr (enableAuth now w)) = false
    /\ unsubscribeAuth (mgr (enableAuth now w)) = true
    /\ localStorage (enableAuth now w)
       = delete "logout_timestamp"
           (delete "auth_disabled" (localStorage w))).
  { unfold enableAuth, unsubscribe. set (w2 := withMgr _ _).
    assert (Hls : localStorage (notifyListeners w2)
                  = delete "logout_timestamp"
                      (delete "auth_disabled" (localStorage w)))
      by (by through_notify).
    assert (Hst : authState (mgr (notifyListeners w2)) = loading)
      by (by through_notify).
    assert (Hlo : isLoggedOut (mgr (notifyListeners w2)) = false)
      by (by through_notify).
    unfold initialize, subscribe.
    destruct (unsubscribeAuth (mgr (notifyListeners w2)));
      cbn [localStorage emit]; rewrite Hls, Hno; simpl;
      by rewrite Hst, Hlo, Hls. }
  destruct Hfields as (Hst & Hlo & Hsub & Hls).
  assert (Hb : blocked t (enableAuth now w) = false).
  { unfold blocked. rewrite Hst, Hlo, Hls, Hno, Hrec. done. }
  do 4 (split; [done|]). split.
  - unfold lockActive. by rewrite Hls, Hno.
  - split; [done|]. unfold listener_begin. by rewrite Hb.
Qed.

(** *** Listeners that have unsubscribed *)

Lemma timesNotified_app (l : nat) (es es' : list Event) :
  timesNotified l (es ++ es')
  = (timesNotified l es + timesNotified l es')%nat.
Proof.
  induction es as [|e es IH]; [done|]. destruct e; simpl; rewrite ?IH; lia.
Qed.

Lemma timesNotified_others (l : nat) (ls : list nat) (st : AuthState)
    (u : option AuthUser) :
  ~ In l ls -> timesNotified l (map (fun l' => Notify l' st u) ls) = 0%nat.
Proof.
  induction ls as [|l' ls IH]; intros Hin; [done|]. simpl.
  destruct (Nat.eqb_spec l' l) as [->|Hne]; [by destruct Hin; left|].
  apply IH. intros H. apply Hin. by right.
Qed.

Lemma nl_timesNotified (l : nat) (w : World) :
  ~ In l (listeners (mgr w)) ->
  timesNotified l (trace (notifyListeners w)) = timesNotified l (trace w).
Proof.
  intros Hin. destruct (notifyListeners_cases w) as [[-> _]|[-> _]]; [done|].
  simpl. rewrite timesNotified_app, timesNotified_others by done. lia.
Qed.

Lemma teardown_timesNotified (l : nat) (now : Z) (w : World) :
  timesNotified l (trace (scheduleReload now (clearFirebaseData w)))
  = timesNotified l (trace w).
Proof.
  destruct (clearFirebaseData_mgr w) as (_ & _ & ks & Htr).
  unfold scheduleReload, setTimeout. cbn [trace]. rewrite Htr.
  rewrite !timesNotified_app. simpl.
  assert (timesNotified l (map RemoveItem ks) = 0%nat) as ->
    by (clear Htr; by induction ks).
  lia.
Qed.

(** Only [onAuthStateChange] and the function it returns change the list
    of listeners. *)
Lemma perform_listeners (now : Z) (a : Action) (w : World) :
  listeners (mgr (perform now a w))
  = match a with
    | ASubscribe l => (listeners (mgr w) ++ [l])%list
    | AUnsubscribe l =>
        List.filter (fun l' => negb (Nat.eqb l' l)) (listeners (mgr w))
    | _ => listeners (mgr w)
    end.
Proof.
  destruct a; cbn [perform]; try done.
  - unfold listener_begin, listener_block.
    by destruct (blocked now w), fb; simpl; through_notify.
  - unfold listener_block. by through_notify.
  - unfold createBackendSession_finish, scheduleAutomaticTierValidation.
    by destruct result as [[d|]|]; through_notify.
  - unfold logout_begin, unsubscribe. set (w5 := setItem _ _ _).
    pose proof (nl_listeners w5) as H5.
    by destruct (unsubscribeAuth (mgr (notifyListeners w5))).
  - unfold logout_afterSignOut. destruct resolved; [done|].
    by rewrite teardown_mgr.
  - unfold logout_afterFetch.
    by destruct response as [[|]|]; rewrite teardown_mgr.
  - unfold enableAuth, unsubscribe, initialize, subscribe.
    set (w2 := withMgr _ _). pose proof (nl_listeners w2) as H2.
    destruct (unsubscribeAuth (mgr (notifyListeners w2)));
      repeat match goal with
        | |- context [if ?c then _ else _] => destruct c
        end; simpl; through_notify; done.
  - unfold updateUserData. destruct (user (mgr w)); [|done].
    by through_notify.
  - unfold refreshFromDatabase_finish, updateUserData.
    destruct response; [|done]. destruct (user (mgr w)); [|done].
    by through_notify.
  - unfold validateAndUpdateTier_begin. by destruct (user (mgr w)).
  - unfold validateAndUpdateTier_finish. destruct response; [|done].
    destruct (user (mgr w)) as [u|]; [|done].
    destruct (tierDiffers f u); [|done]. by through_notify.
  - unfold signUpWithEmail_begin. by destruct isPremiumCoupon.
Qed.

Ltac count_calls Hin :=
  cbn [trace mgr emit withMgr setItem removeItem setTimeout];
  rewrite ?timesNotified_app;
  rewrite ?nl_timesNotified by exact Hin;
  cbn [trace mgr emit withMgr setItem removeItem setTimeout timesNotified];
  rewrite ?timesNotified_app; simpl timesNotified; try lia.

(** A segment calls the listeners on the list, and the one it
    subscribes, and no other. *)
Lemma perform_timesNotified (now : Z) (a : Action) (w : World) (l : nat) :
  ~ In l (listeners (mgr w)) -> a <> ASubscribe l ->
  timesNotified l (trace (perform now a w)) = timesNotified l (trace w).
Proof.
  intros Hin Ha. destruct a; cbn [perform].
  - unfold listener_begin, listener_block.
    destruct (blocked now w), fb; count_calls Hin.
  - unfold listener_block. count_calls Hin.
  - unfold createBackendSession_finish, scheduleAutomaticTierValidation.
    destruct result as [[d|]|]; count_calls Hin;
      destruct (user (mgr w)); count_calls Hin.
  - unfold logout_begin, unsubscribe. set (w5 := setItem _ _ _).
    assert (H5 : timesNotified l (trace (notifyListeners w5))
                 = timesNotified l (trace w))
      by (rewrite nl_timesNotified by exact Hin; subst w5;
          count_calls Hin).
    destruct (unsubscribeAuth (mgr (notifyListeners w5)));
      cbn [trace mgr emit withMgr]; rewrite ?timesNotified_app, H5;
      simpl; lia.
  - unfold logout_afterSignOut. destruct resolved;
      [count_calls Hin|apply teardown_timesNotified].
  - unfold logout_afterFetch. destruct response as [[|]|];
      rewrite teardown_timesNotified; count_calls Hin.
  - unfold enableAuth, unsubscribe. set (w2 := withMgr _ _).
    assert (H2 : timesNotified l (trace (notifyListeners w2))
                 = timesNotified l (trace w))
      by (rewrite nl_timesNotified by exact Hin; subst w2;
          count_calls Hin).
    assert (Hls : localStorage (notifyListeners w2)
                  = delete "logout_timestamp"
                      (delete "auth_disabled" (localStorage w)))
      by (by through_notify).
    destruct (authDisabled_removed (localStorage w)) as [Hno _].
    unfold initialize, subscribe.
    destruct (unsubscribeAuth (mgr (notifyListeners w2)));
      cbn [localStorage emit]; rewrite Hls, Hno;
      cbn [trace mgr emit withMgr]; rewrite ?timesNotified_app, H2;
      simpl; lia.
  - unfold updateUserData. destruct (user (mgr w)); [|done].
    count_calls Hin.
  - unfold refreshFromDatabase_finish, updateUserData.
    destruct response; [|done]. destruct (user (mgr w)); [|done].
    count_calls Hin.
  - unfold validateAndUpdateTier_begin. destruct (user (mgr w)); [|done].
    simpl. count_calls Hin.
  - unfold validateAndUpdateTier_finish. destruct response; [|done].
    destruct (user (mgr w)) as [u|]; [|done].
    destruct (tierDiffers f u); [|done]. count_calls Hin.
  - unfold signUpWithEmail_begin. by destruct isPremiumCoupon.
  - done.
  - unfold onAuthStateChange. count_calls Hin.
    destruct (Nat.eqb_spec l0 l) as [->|Hne]; [done|lia].
  - done.
Qed.

(** X25.  A listener that has unsubscribed is not called again: through
    any sequence of segments in which it does not subscribe anew, the
    number of times it has been called stays what it was. *)
Theorem X25_unsubscribed_listener_is_not_called
    (acts : list (Z * Action)) (w : World) (l : nat) :
  Forall (fun act => act.2 <> ASubscribe l) acts ->
  timesNotified l (trace (performAll acts (removeListener l w)))
  = timesNotified l (trace w)
  /\ ~ In l (listeners (mgr (performAll acts (removeListener l w)))).
Proof.
  intros Hacts.
  assert (Hgone : ~ In l (listeners (mgr (removeListener l w)))).
  { simpl. intros [_ H]%filter_In. by rewrite Nat.eqb_refl in H. }
  change (timesNotified l (trace w))
    with (timesNotified l (trace (removeListener l w))).
  generalize dependent (removeListener l w). clear w.
  induction acts as [|[now a] acts IH]; intros w Hgone; [done|].
  apply Forall_cons in Hacts as [Ha Hacts]. simpl in Ha.
  cbn [performAll].
  assert (Hgone' : ~ In l (listeners (mgr (perform now a w)))).
  { rewrite perform_listeners. destruct a; try done.
    - intros [H|[H|[]]]%in_app_or; [done|congruence].
    - by intros [H _]%filter_In. }
  destruct (IH Hacts _ Hgone') as [-> H']. split; [|done].
  by apply perform_timesNotified.
Qed.

(** *** Updates of the cached user *)

Lemma notifyListeners_idem (w : World) :
  notifyListeners (notifyListeners w) = notifyListeners w.
Proof.
  destruct (notifyListeners_cases (notifyListeners w)) as [[E _]|[_ Hne]];
    [done|].
  destruct Hne. rewrite notifyListeners_last. by through_notify.
Qed.

Lemma setUser_same (w : World) (u : option AuthUser) :
  user (mgr w) = u -> withMgr (setUser u) w = w.
Proof. intros <-. by destruct w as [[] ? ? ?]. Qed.

Lemma spread_idem (u : AuthUser) (p : PartialUser) :
  spread (spread u p) p = spread u p.
Proof.
  destruct p as [a b c d e f g h i j k l]. unfold spread. simpl.
  by destruct a, b, c, d, e, f, g, h, i, j, k, l.
Qed.

Lemma forcePro_idem (p : PartialUser) : forcePro (forcePro p) = forcePro p.
Proof. done. Qed.

(** X26.  [updateUserData] is idempotent for data that carries no
    email: a second call with the same data changes nothing and calls no
    listener, whether there is a user or not and whether it is the demo
    account or not. *)
Theorem X26_updateUserData_twice_is_once (p : PartialUser) (w : World) :
  p_email p = None ->
  updateUserData p (updateUserData p w) = updateUserData p w.
Proof.
  intros Hp. destruct (user (mgr w)) as [u|] eqn:Hu.
  - set (p' := if String.eqb (email u) "premium@demo.com"
               then forcePro p else p).
    assert (Hp' : p_email p' = None) by (subst p'; by destruct (String.eqb _ _)).
    assert (E : updateUserData p w
                = notifyListeners
                    (withMgr (setUser (Some (spread u p'))) w))
      by (unfold updateUserData; by rewrite Hu).
    rewrite E. unfold updateUserData at 1. rewrite nl_user. cbn [withMgr mgr setUser user].
    assert (Hemail : email (spread u p') = email u)
      by (unfold spread; simpl; by rewrite Hp').
    rewrite Hemail. fold p'. rewrite spread_idem.
    rewrite setUser_same by (by rewrite nl_user).
    apply notifyListeners_idem.
  - unfold updateUserData. by rewrite Hu, Hu.
Qed.

(** X27.  Whatever the refresh answers, [validateAndUpdateTier] leaves
    the state, the storage, the timers, the flags of the manager and the
    list of listeners as they were, and of the user it can only change
    the tier, the two allowances and the storyboard flag.  Without a user,
    or when the request fails, nothing changes at all but the request
    having been made. *)
Theorem X27_tier_validation_changes_tier_fields_only
    (response : option FreshUser) (w : World) :
  let w' := validateAndUpdateTier response w in
  authState (mgr w') = authState (mgr w)
  /\ isLoggedOut (mgr w') = isLoggedOut (mgr w)
  /\ listeners (mgr w') = listeners (mgr w)
  /\ localStorage w' = localStorage w
  /\ timers w' = timers w
  /\ match user (mgr w), user (mgr w') with
     | Some u, Some u' =>
         id u' = id u /\ email u' = email u
         /\ displayName u' = displayName u /\ provider u' = provider u
         /\ usedPages u' = usedPages u /\ firstName u' = firstName u
         /\ lastName u' = lastName u /\ preferences u' = preferences u
     | None, None => w' = w
     | _, _ => False
     end
  /\ (response = None -> user (mgr w') = user (mgr w)
                         /\ emitted (trace w') = emitted (trace w)).
Proof.
  cbv zeta. unfold validateAndUpdateTier, validateAndUpdateTier_begin,
    validateAndUpdateTier_finish.
  destruct (user (mgr w)) as [u|] eqn:Hu; [|by rewrite Hu].
  cbn [mgr emit user]. rewrite Hu.
  assert (Hem : emitted (trace w ++ [BackendRefresh]) = emitted (trace w)).
  { unfold emitted. rewrite omap_app. simpl. by rewrite app_nil_r. }
  destruct response as [fresh|].
  - destruct (tierDiffers fresh u); through_notify; simpl; rewrite ?Hu;
      by repeat split.
  - simpl. rewrite Hu. by repeat split.
Qed.

(** *** A sign-out reported by the provider *)

(** X29.  When the provider reports that nobody is signed in, the
    listener runs in one segment: it starts no exchange, does not call the
    provider and queues no timer.  If the guard blocks, the state is
    [disabled] afterwards; otherwise it is [unauthenticated]; in both
    cases no user is held and no user is handed to a listener. *)
Theorem X29_sign_out_notification
    (now : Z) (result : option (option BackendUser)) (w : World) :
  let w' := listener now None result w in
  listener_begin now None w = LDone w'
  /\ authState (mgr w')
     = (if blocked now w then disabled else unauthenticated)
  /\ user (mgr w') = None
  /\ timers w' = timers w /\ localStorage w' = localStorage w
  /\ exists es, trace w' = (trace w ++ es)%list
                /\ Forall (fun e => exists l st, e = Notify l st None) es.
Proof.
  cbv zeta. unfold listener, listener_begin, listener_block.
  destruct (blocked now w); through_notify; simpl;
    (do 5 (split; [done|]));
    match goal with |- context [notifyListeners ?x] =>
      destruct (notifyListeners_trace x) as (es & -> & Hes) end;
    exists es; (split; [done|]);
    (eapply Forall_impl; [exact Hes|]); intros e [l ->]; eauto.
Qed.

(** *** Instances of the further properties *)

Lemma samplePageRun_reachable : reachable sampleRun.
Proof. do 3 constructor. constructor. Qed.

Lemma X16_witness :
  lastSeen 1 sampleRun = Some (authenticated, Some (sessionUser sampleSession))
  /\ lastSeen 2 sampleRun
     = Some (authenticated, Some (sessionUser sampleSession)).
Proof.
  split.
  - exact (X16_listeners_hold_the_current_state sampleRun 1
             samplePageRun_reachable (or_introl eq_refl)).
  - exact (X16_listeners_hold_the_current_state sampleRun 2
             samplePageRun_reachable (or_intror (or_introl eq_refl))).
Defined.

Lemma X17_witness : user (mgr sampleRun) <> None.
Proof.
  exact (proj1 (X17_user_and_state_go_together sampleRun
                  samplePageRun_reachable) eq_refl).
Defined.

Lemma X18_witness : liveSubscriptions (trace sampleRun) = 1.
Proof.
  exact (X18_at_most_one_subscription sampleRun samplePageRun_reachable).
Defined.

Lemma X25_witness :
  timesNotified 1
    (trace (performAll [(40, ALogoutBegin); (50, AEnableAuth)]
              (removeListener 1 sampleRun)))
  = timesNotified 1 (trace sampleRun).
Proof.
  refine (proj1 (X25_unsubscribed_listener_is_not_called
                   [(40, ALogoutBegin); (50, AEnableAuth)] sampleRun 1 _)).
  repeat constructor; discriminate.
Defined.

Lemma X26_witness :
  updateUserData namePartial (updateUserData namePartial (signedIn demoUser))
  = updateUserData namePartial (signedIn demoUser).
Proof.
  exact (X26_updateUserData_twice_is_once namePartial (signedIn demoUser)
           eq_refl).
Defined.

End ReconcilerFacts.
